(** * Model specification for first-level fMRI analysis

    Shallow embedding of the event-grouping cell of
    [notebooks/basic_model_specification.ipynb]:

<<
    conditions = []
    onsets = []
    durations = []

    for group in trialinfo.groupby('trial_type'):
        conditions.append(group[0])
        onsets.append(group[1].onset.tolist())
        durations.append(group[1].duration.tolist())

    subject_info = Bunch(conditions=conditions,
                         onsets=onsets,
                         durations=durations)
>>

    The cell is the operation the specification calls [group]; its result,
    the [Bunch] bound to [subject_info], is the specification's
    ConditionModel.  [trialinfo] is the pandas DataFrame returned by
    [pd.read_table] on the events file. *)

From Stdlib Require Import List ZArith String Bool Arith.
From Stdlib Require Import Sorted Permutation OrderedTypeEx.
Import ListNotations.
Open Scope string_scope.
Open Scope list_scope.

(** ** Exceptions

    The two exceptions the cell can raise: [df.groupby(k)] raises
    [KeyError] when the frame has no column [k], and the attribute access
    [df.onset] raises [AttributeError] when the frame has no such column. *)

Inductive exn : Type :=
| KeyError (key : string)
| AttributeError (name : string).

Inductive result (A : Type) : Type :=
| Ok (a : A)
| Raise (e : exn).

Arguments Ok {A} a.
Arguments Raise {A} e.

Definition bind {A B : Type} (m : result A) (k : A -> result B) : result B :=
  match m with
  | Ok a => k a
  | Raise e => Raise e
  end.

Notation "x <- m ;; k" := (bind m (fun x => k))
  (at level 61, m at next level, right associativity).

(** ** The data frame

    The cell never inspects an onset or a duration: it only moves the
    cells of those columns into lists.  The model is therefore parametric
    in the type [value] of such a cell (int64, float64 with NaN for an
    empty field, or a Python object for a column that did not parse as
    numbers).  A [trial_type] cell is a string label, or [None] for the
    null (NaN) of an empty field. *)

Section Frame.

Context {value : Type}.

Record TrialRecord : Type := mkTrial {
  onset : value;
  duration : value;
  weight : option value;
  trial_type : option string
}.

(** A frame is its header and its rows, in file order.  A row stores a
    cell for each of the four columns of the events file; the cell of a
    column that is not in the header is never read. *)
Record DataFrame : Type := mkFrame {
  columns : list string;
  rows : list TrialRecord
}.

Definition has_column (df : DataFrame) (c : string) : bool :=
  existsb (String.eqb c) (columns df).

(** *** [DataFrame.groupby]

    pandas keeps the groups keyed by label.  With the defaults the cell
    uses ([sort=True], null keys dropped) iteration visits the keys in
    ascending order, and each group holds its rows in frame order.  The
    groups are modelled as a list sorted by key, built in one pass over
    the rows.  Keys compare as Python strings do; on the UTF-8 bytes of a
    [string] that is the byte-wise order of [String.compare]. *)

Definition groups : Type := list (string * list TrialRecord).

Fixpoint add_to_group (k : string) (r : TrialRecord) (gs : groups) : groups :=
  match gs with
  | [] => [(k, [r])]
  | (k', g) :: gs' =>
      match String.compare k k' with
      | Lt => (k, [r]) :: (k', g) :: gs'
      | Eq => (k', g ++ [r]) :: gs'
      | Gt => (k', g) :: add_to_group k r gs'
      end
  end.

Definition place (gs : groups) (r : TrialRecord) : groups :=
  match trial_type r with
  | Some k => add_to_group k r gs
  | None => gs
  end.

Definition group_rows (rs : list TrialRecord) : groups :=
  fold_left place rs [].

(** [trialinfo.groupby('trial_type')], iterated: the pairs
    [(key, sub-frame)]. *)
Definition groupby_trial_type (df : DataFrame)
  : result (list (string * DataFrame)) :=
  if has_column df "trial_type"
  then Ok (map (fun kg => (fst kg, mkFrame (columns df) (snd kg)))
               (group_rows (rows df)))
  else Raise (KeyError "trial_type").

(** [df.onset.tolist()] and [df.duration.tolist()]. *)
Definition onset_tolist (df : DataFrame) : result (list value) :=
  if has_column df "onset"
  then Ok (map onset (rows df))
  else Raise (AttributeError "onset").

Definition duration_tolist (df : DataFrame) : result (list value) :=
  if has_column df "duration"
  then Ok (map duration (rows df))
  else Raise (AttributeError "duration").

(** ** The cell *)

(** The attribute container built at the end of the cell. *)
Record Bunch : Type := mkBunch {
  conditions : list string;
  onsets : list (list value);
  durations : list (list value)
}.

(** One iteration of the [for] loop on the three lists. *)
Definition loop_body (st : Bunch) (group : string * DataFrame) : result Bunch :=
  let conditions' := conditions st ++ [fst group] in
  os <- onset_tolist (snd group) ;;
  let onsets' := onsets st ++ [os] in
  ds <- duration_tolist (snd group) ;;
  let durations' := durations st ++ [ds] in
  Ok (mkBunch conditions' onsets' durations').

Fixpoint for_each (gs : list (string * DataFrame)) (st : Bunch) : result Bunch :=
  match gs with
  | [] => Ok st
  | group :: gs' => st' <- loop_body st group ;; for_each gs' st'
  end.

(** The whole cell: the value bound to [subject_info]. *)
Definition subject_info (trialinfo : DataFrame) : result Bunch :=
  gs <- groupby_trial_type trialinfo ;;
  for_each gs (mkBunch [] [] []).

End Frame.

Arguments TrialRecord value : clear implicits.
Arguments DataFrame value : clear implicits.
Arguments Bunch value : clear implicits.
Arguments groups value : clear implicits.

(** ** Vocabulary of the specification *)

(** Labels compare as Python strings do: character by character, by
    code. *)
Abbreviation slt := String_as_OT.lt.

Section Vocabulary.

Context {value : Type}.

(** The record carries label [k]. *)
Definition has_label (k : string) (r : TrialRecord value) : bool :=
  match trial_type r with
  | Some k' => String.eqb k k'
  | None => false
  end.

(** The record has a non-null [trial_type]. *)
Definition labelled (r : TrialRecord value) : bool :=
  match trial_type r with
  | Some _ => true
  | None => false
  end.

(** Number of input records whose [trial_type] is [k]. *)
Fixpoint count_label (k : string) (rs : list (TrialRecord value)) : nat :=
  match rs with
  | [] => 0
  | r :: rs' => (if has_label k r then 1 else 0) + count_label k rs'
  end.

(** The specification's ordered label list: scan the records in input
    order and append a label the first time it is seen. *)
Definition spec_see (seen : list string) (r : TrialRecord value) : list string :=
  match trial_type r with
  | Some k => if existsb (String.eqb k) seen then seen else seen ++ [k]
  | None => seen
  end.

Definition spec_first_seen (rs : list (TrialRecord value)) : list string :=
  fold_left spec_see rs [].

(** The keys of the groups, in iteration order. *)
Definition keys (gs : groups value) : list string := map fst gs.

(** [gs] are the groups of the rows [rs]: keys strictly ascending, each
    group the rows of its key in frame order and not empty, every label
    of [rs] among the keys. *)
Definition groups_of (rs : list (TrialRecord value)) (gs : groups value) : Prop :=
  StronglySorted slt (keys gs)
  /\ Forall (fun kg => snd kg = filter (has_label (fst kg)) rs /\ snd kg <> []) gs
  /\ (forall r k, In r rs -> trial_type r = Some k -> In k (keys gs)).

(** What the loop leaves in the three lists when no attribute is
    missing. *)
Definition bunch_of (gs : groups value) : Bunch value :=
  mkBunch (keys gs) (map (fun kg => map onset (snd kg)) gs)
          (map (fun kg => map duration (snd kg)) gs).

(** The frame has the three columns the cell reads. *)
Definition required_columns (df : DataFrame value) : bool :=
  has_column df "trial_type" && has_column df "onset"
  && has_column df "duration".

(** The frame without the rows whose [trial_type] is null. *)
Definition dropna (df : DataFrame value) : DataFrame value :=
  mkFrame (columns df) (filter labelled (rows df)).

(** Two records that agree on everything but [weight]. *)
Definition same_but_weight (r1 r2 : TrialRecord value) : Prop :=
  onset r1 = onset r2 /\ duration r1 = duration r2
  /\ trial_type r1 = trial_type r2.

(** Two groups with the same key whose rows agree but for [weight]. *)
Definition group_agrees (g1 g2 : string * list (TrialRecord value)) : Prop :=
  fst g1 = fst g2 /\ Forall2 same_but_weight (snd g1) (snd g2).

(** The record without its weight. *)
Definition unweighted (r : TrialRecord value) : TrialRecord value :=
  mkTrial (onset r) (duration r) None (trial_type r).

(** Reading a [Bunch] back as records: entry [i] gives one block, the
    records [(onsets[i][j], durations[i][j], conditions[i])] in list
    order. *)
Definition block (c : string) (os ds : list value) : list (TrialRecord value) :=
  map (fun od => mkTrial (fst od) (snd od) None (Some c)) (combine os ds).

Definition blocks (b : Bunch value) : list (list (TrialRecord value)) :=
  map (fun e => block (fst e) (fst (snd e)) (snd (snd e)))
      (combine (conditions b) (combine (onsets b) (durations b))).

(** The flattened reconstruction, block after block. *)
Definition flatten (b : Bunch value) : list (TrialRecord value) :=
  List.concat (blocks b).

End Vocabulary.

(** [shuffle l1 l2 l]: [l] merges [l1] and [l2], each keeping its own
    order. *)
Inductive shuffle {A : Type} : list A -> list A -> list A -> Prop :=
| shuffle_nil : shuffle [] [] []
| shuffle_left (x : A) (l1 l2 l : list A) :
    shuffle l1 l2 l -> shuffle (x :: l1) l2 (x :: l)
| shuffle_right (x : A) (l1 l2 l : list A) :
    shuffle l1 l2 l -> shuffle l1 (x :: l2) (x :: l).

(** [interleaving bs l]: [l] interleaves the lists [bs], each one keeping
    its own order. *)
Inductive interleaving {A : Type} : list (list A) -> list A -> Prop :=
| interleaving_nil : interleaving [] []
| interleaving_cons (b : list A) (bs : list (list A)) (l l' : list A) :
    interleaving bs l -> shuffle b l l' -> interleaving (b :: bs) l'.

(** ** Example frames *)

(** The example of the specification. *)
Definition five_trials : DataFrame Z :=
  mkFrame ["onset"; "duration"; "trial_type"]
    [ mkTrial 10%Z 15%Z None (Some "Finger");
      mkTrial 40%Z 15%Z None (Some "Foot");
      mkTrial 70%Z 15%Z None (Some "Lips");
      mkTrial 100%Z 15%Z None (Some "Finger");
      mkTrial 130%Z 15%Z None (Some "Foot") ].

(** The first rows of the events file of the notebook, weight column
    included. *)
Definition events_head : DataFrame Z :=
  mkFrame ["onset"; "duration"; "weight"; "trial_type"]
    [ mkTrial 10%Z 15%Z (Some 1%Z) (Some "Finger");
      mkTrial 40%Z 15%Z (Some 1%Z) (Some "Foot");
      mkTrial 70%Z 15%Z (Some 1%Z) (Some "Lips");
      mkTrial 100%Z 15%Z (Some 1%Z) (Some "Finger");
      mkTrial 130%Z 15%Z (Some 1%Z) (Some "Foot") ].

(** The same rows with other weights. *)
Definition events_head_reweighted : DataFrame Z :=
  mkFrame ["onset"; "duration"; "weight"; "trial_type"]
    [ mkTrial 10%Z 15%Z (Some 3%Z) (Some "Finger");
      mkTrial 40%Z 15%Z None (Some "Foot");
      mkTrial 70%Z 15%Z (Some 0%Z) (Some "Lips");
      mkTrial 100%Z 15%Z (Some (-2)%Z) (Some "Finger");
      mkTrial 130%Z 15%Z (Some 7%Z) (Some "Foot") ].

(** Labels that first appear in descending order. *)
Definition foot_first : DataFrame Z :=
  mkFrame ["onset"; "duration"; "trial_type"]
    [ mkTrial 40%Z 15%Z None (Some "Foot");
      mkTrial 10%Z 15%Z None (Some "Finger");
      mkTrial 130%Z 15%Z None (Some "Foot") ].

(** Cells as [read_table] can deliver them: a number, the NaN of an empty
    field, or the text of a field that is not a number. *)
Inductive cell : Type :=
| Num (z : Z)
| NaN
| Text (s : string).

(** A frame with an empty [trial_type] field, an empty [onset] field and
    a [duration] field that is not a number. *)
Definition ragged : DataFrame cell :=
  mkFrame ["onset"; "duration"; "trial_type"]
    [ mkTrial (Num 10) (Num 15) None None;
      mkTrial NaN (Num 15) None (Some "Foot");
      mkTrial (Num 70) (Text "long") None (Some "Foot") ].

(** Frames whose header lacks a column. *)
Definition no_trial_type : DataFrame Z :=
  mkFrame ["onset"; "duration"] [ mkTrial 10%Z 15%Z None None ].

Definition no_onset : DataFrame Z :=
  mkFrame ["duration"; "trial_type"] [ mkTrial 0%Z 15%Z None (Some "Foot") ].

(** ** The other cells of the notebook *)

Section OtherCells.

Context {value : Type}.

(** [trialinfo.head()]: the frame cut to its first five rows. *)
Definition head (df : DataFrame value) : DataFrame value :=
  mkFrame (columns df) (firstn 5 (rows df)).

(** A pandas Series: values, each with the label of its row. *)
Definition Series : Type := list (nat * value).

(** [Series.tolist()] forgets the row labels. *)
Definition tolist (s : Series) : list value := map snd s.

(** The frame with its index.  [read_table] labels the rows 0, 1, 2, ...;
    a sub-frame of [groupby] keeps the labels of the rows it holds.  The
    label is carried by pairing every cell of the row with it, so that a
    column of the indexed frame is a [Series]. *)
Definition tag (i : nat) (r : TrialRecord value) : TrialRecord (nat * value) :=
  mkTrial (i, onset r) (i, duration r) (option_map (pair i) (weight r))
          (trial_type r).

Fixpoint with_index_from (i : nat) (rs : list (TrialRecord value))
  : list (TrialRecord (nat * value)) :=
  match rs with
  | [] => []
  | r :: rs' => tag i r :: with_index_from (S i) rs'
  end.

Definition with_index (df : DataFrame value) : DataFrame (nat * value) :=
  mkFrame (columns df) (with_index_from 0 (rows df)).

(** The cell that shows the groups:

<<
    for group in trialinfo.groupby('trial_type'):
        print(group[0])
        print(group[1].onset, group[1].duration)
>>

    The model keeps what each [print] writes, not its layout: a label,
    or the two Series of a group. *)
Inductive printed : Type :=
| PLabel (k : string)
| PSeries (os ds : Series).

(** One iteration: what it writes, and the exception that ends it if
    any.  The label is written before the attributes are looked up. *)
Definition print_group (group : string * DataFrame (nat * value))
  : list printed * option exn :=
  match onset_tolist (snd group) with
  | Raise e => ([PLabel (fst group)], Some e)
  | Ok os =>
      match duration_tolist (snd group) with
      | Raise e => ([PLabel (fst group)], Some e)
      | Ok ds => ([PLabel (fst group); PSeries os ds], None)
      end
  end.

Fixpoint print_each (gs : list (string * DataFrame (nat * value)))
  : list printed * option exn :=
  match gs with
  | [] => ([], None)
  | group :: gs' =>
      match print_group group with
      | (out, Some e) => (out, Some e)
      | (out, None) =>
          let (out', e) := print_each gs' in (out ++ out', e)
      end
  end.

(** The whole cell: everything written, and the exception raised if
    any. *)
Definition print_cell (trialinfo : DataFrame value)
  : list printed * option exn :=
  match groupby_trial_type (with_index trialinfo) with
  | Raise e => ([], Some e)
  | Ok gs => print_each gs
  end.

(** The labels written, and the onsets and durations written, as
    lists. *)
Definition printed_labels (out : list printed) : list string :=
  flat_map (fun p => match p with PLabel k => [k] | PSeries _ _ => [] end) out.

Definition printed_onsets (out : list printed) : list (list value) :=
  flat_map (fun p => match p with PLabel _ => [] | PSeries os _ => [tolist os] end)
           out.

Definition printed_durations (out : list printed) : list (list value) :=
  flat_map (fun p => match p with PLabel _ => [] | PSeries _ ds => [tolist ds] end)
           out.

(** What the cell writes for the groups [gs] of an indexed frame when
    both columns are there. *)
Definition lines_of (gs : groups (nat * value)) : list printed :=
  flat_map (fun kg => [PLabel (fst kg);
                       PSeries (map onset (snd kg)) (map duration (snd kg))])
           gs.

End OtherCells.

Arguments Series value : clear implicits.
Arguments printed value : clear implicits.

(** Converting the values of a frame, or of a [Bunch], cell by cell (for
    instance onsets in scans to onsets in seconds). *)
Section Conversion.

Context {A B : Type}.

Definition map_record (f : A -> B) (r : TrialRecord A) : TrialRecord B :=
  mkTrial (f (onset r)) (f (duration r)) (option_map f (weight r))
          (trial_type r).



Definition map_groups (f : A -> B) (gs : groups A) : groups B :=
  map (fun kg => (fst kg, map (map_record f) (snd kg))) gs.

End Conversion.

(** The fifteen events of the tutorial's file (its durations, 15.0, are
    entered as 15). *)
Definition events : DataFrame Z :=
  mkFrame ["onset"; "duration"; "weight"; "trial_type"]
    (map (fun ok => mkTrial (fst ok) 15%Z (Some 1%Z) (Some (snd ok)))
       [ (10, "Finger"); (40, "Foot"); (70, "Lips");
         (100, "Finger"); (130, "Foot"); (160, "Lips");
         (190, "Finger"); (220, "Foot"); (250, "Lips");
         (280, "Finger"); (310, "Foot"); (340, "Lips");
         (370, "Finger"); (400, "Foot"); (430, "Lips") ]%Z).

(** [foot_first] with its first two rows exchanged. *)
Definition finger_first : DataFrame Z :=
  mkFrame ["onset"; "duration"; "trial_type"]
    [ mkTrial 10%Z 15%Z None (Some "Finger");
      mkTrial 40%Z 15%Z None (Some "Foot");
      mkTrial 130%Z 15%Z None (Some "Foot") ].

(** [foot_first] with its rows in reverse. *)
Definition foot_last : DataFrame Z :=
  mkFrame ["onset"; "duration"; "trial_type"]
    [ mkTrial 130%Z 15%Z None (Some "Foot");
      mkTrial 10%Z 15%Z None (Some "Finger");
      mkTrial 40%Z 15%Z None (Some "Foot") ].

(** * Facts about the embedding *)

(** ** Label order *)

Lemma compare_Lt_slt (k k' : string) : String.compare k k' = Lt -> slt k k'.
Proof. intro H. apply String_as_OT.cmp_lt. exact H. Qed.

Lemma compare_Gt_slt (k k' : string) : String.compare k k' = Gt -> slt k' k.
Proof.
  intro H. apply String_as_OT.cmp_lt.
  rewrite String_as_OT.cmp_antisym.
  unfold String_as_OT.cmp. rewrite H. reflexivity.
Qed.

Lemma slt_irrefl (k : string) : ~ slt k k.
Proof. intro H. exact (String_as_OT.lt_not_eq _ _ H eq_refl). Qed.

Lemma slt_neq (k k' : string) : slt k k' -> k <> k'.
Proof. intros H E. subst. exact (slt_irrefl _ H). Qed.

Lemma slt_asym (k k' : string) : slt k k' -> ~ slt k' k.
Proof.
  intros H1 H2. exact (slt_irrefl _ (String_as_OT.lt_trans _ _ _ H1 H2)).
Qed.

Lemma compare_slt_Lt (k k' : string) : slt k k' -> String.compare k k' = Lt.
Proof. intro H. apply String_as_OT.cmp_lt. exact H. Qed.

Lemma compare_slt_Gt (k k' : string) : slt k' k -> String.compare k k' = Gt.
Proof.
  intro H. rewrite String.compare_antisym.
  rewrite (compare_slt_Lt _ _ H). reflexivity.
Qed.

Lemma compare_same (k : string) : String.compare k k = Eq.
Proof. apply String_as_OT.cmp_eq. reflexivity. Qed.

(** Two strictly ascending lists with the same members are equal. *)
Lemma sorted_members_eq (l1 l2 : list string) :
  StronglySorted slt l1 -> StronglySorted slt l2 ->
  (forall k, In k l1 <-> In k l2) -> l1 = l2.
Proof.
  intros S1. revert l2.
  induction S1 as [|a l1 S1 IH F1]; intros l2 S2 M.
  - destruct l2 as [|b l2]; [reflexivity|].
    exfalso. apply (proj2 (M b)). left. reflexivity.
  - destruct S2 as [|b l2 S2 F2].
    + exfalso. apply (proj1 (M a)). left. reflexivity.
    + rewrite Forall_forall in F1, F2.
      assert (E : a = b).
      { destruct (proj1 (M a) (or_introl eq_refl)) as [E|Ha]; [auto|].
        destruct (proj2 (M b) (or_introl eq_refl)) as [E|Hb]; [auto|].
        exfalso. exact (slt_asym _ _ (F1 _ Hb) (F2 _ Ha)). }
      subst b. f_equal. apply IH; [exact S2|].
      intro k. split; intro Hk.
      * destruct (proj1 (M k) (or_intror Hk)) as [E|H]; [|exact H].
        subst k. exfalso. exact (slt_irrefl _ (F1 _ Hk)).
      * destruct (proj2 (M k) (or_intror Hk)) as [E|H]; [|exact H].
        subst k. exfalso. exact (slt_irrefl _ (F2 _ Hk)).
Qed.

Lemma sorted_NoDup (l : list string) : StronglySorted slt l -> NoDup l.
Proof.
  induction 1 as [|a l S IH F]; constructor; [|exact IH].
  intro Ha. rewrite Forall_forall in F. exact (slt_irrefl _ (F _ Ha)).
Qed.

(** ** The groups *)

Section GroupFacts.

Context {value : Type}.
Implicit Types (r : TrialRecord value) (rs g : list (TrialRecord value)).
Implicit Types (gs : groups value) (k : string).

Lemma has_label_iff k r : has_label k r = true <-> trial_type r = Some k.
Proof.
  unfold has_label. destruct (trial_type r) as [k'|].
  - rewrite String.eqb_eq. split; intro H; [subst|inversion H]; reflexivity.
  - split; discriminate.
Qed.

Lemma has_label_other k k' r :
  trial_type r = Some k -> k' <> k -> has_label k' r = false.
Proof.
  intros H N. destruct (has_label k' r) eqn:E; [|reflexivity].
  apply has_label_iff in E. congruence.
Qed.

Lemma keys_add k r gs k' :
  In k' (keys (add_to_group k r gs)) <-> k' = k \/ In k' (keys gs).
Proof.
  induction gs as [|[k0 g] gs IH]; simpl.
  - intuition.
  - destruct (String.compare k k0) eqn:C; simpl.
    + apply String.compare_eq_iff in C. subst k0. intuition.
    + intuition.
    + fold (keys (add_to_group k r gs)). rewrite IH. fold (keys gs). intuition.
Qed.

Lemma add_sorted k r gs :
  StronglySorted slt (keys gs) -> StronglySorted slt (keys (add_to_group k r gs)).
Proof.
  induction gs as [|[k0 g] gs IH]; simpl; intro S.
  - repeat constructor.
  - inversion S as [|? ? S' F]; subst.
    destruct (String.compare k k0) eqn:C; simpl.
    + exact S.
    + constructor; [exact S|].
      apply compare_Lt_slt in C. constructor; [exact C|].
      eapply Forall_impl; [|exact F].
      intros a Ha. exact (String_as_OT.lt_trans _ _ _ C Ha).
    + apply compare_Gt_slt in C. constructor; [apply IH; exact S'|].
      apply Forall_forall. intros a Ha.
      apply keys_add in Ha. destruct Ha as [->|Ha]; [exact C|].
      rewrite Forall_forall in F. apply F. exact Ha.
Qed.

(** How a property of every group is carried through one insertion. *)
Lemma add_Forall k r gs (P Q : string * list (TrialRecord value) -> Prop) :
  StronglySorted slt (keys gs) ->
  (forall kg, fst kg <> k -> P kg -> Q kg) ->
  (forall g, P (k, g) -> Q (k, g ++ [r])) ->
  (~ In k (keys gs) -> Q (k, [r])) ->
  Forall P gs -> Forall Q (add_to_group k r gs).
Proof.
  intros S Hother Hsame Hnew.
  assert (Hrest : forall k0 gs', Forall (slt k0) (keys gs') ->
            (k = k0 \/ slt k k0) -> Forall P gs' -> Forall Q gs').
  { intros k0 gs' F Hk FP. rewrite Forall_forall in *.
    intros kg Hin. apply Hother; [|apply FP; exact Hin].
    assert (L : slt k0 (fst kg)) by (apply F, in_map, Hin).
    intro E. rewrite E in L. destruct Hk as [->|Hk].
    - exact (slt_irrefl _ L).
    - exact (slt_asym _ _ L Hk). }
  induction gs as [|[k0 g] gs IH]; simpl; intro FP.
  - constructor; [apply Hnew; intros []|constructor].
  - inversion S as [|? ? S' F]; subst.
    inversion FP as [|? ? P0 FP']; subst.
    destruct (String.compare k k0) eqn:C.
    + apply String.compare_eq_iff in C. subst k0.
      constructor; [apply Hsame; exact P0|].
      apply (Hrest k gs F); [left; reflexivity|exact FP'].
    + apply compare_Lt_slt in C. constructor.
      * apply Hnew. simpl. intros [E|Hin].
        -- subst k0. exact (slt_irrefl _ C).
        -- rewrite Forall_forall in F. exact (slt_asym _ _ (F _ Hin) C).
      * constructor.
        -- apply Hother; [|exact P0]. simpl. intro E. subst k0.
           exact (slt_irrefl _ C).
        -- apply (Hrest k0 gs F); [right; exact C|exact FP'].
    + apply compare_Gt_slt in C. constructor.
      * apply Hother; [|exact P0]. simpl. intro E. subst k0.
        exact (slt_irrefl _ C).
      * apply IH; [exact S'| |exact FP'].
        intro N. apply Hnew. simpl. intros [E|Hin]; [|exact (N Hin)].
        subst k0. exact (slt_irrefl _ C).
Qed.

Lemma filter_snoc (p : TrialRecord value -> bool) rs r :
  filter p (rs ++ [r]) = filter p rs ++ (if p r then [r] else []).
Proof. rewrite filter_app. reflexivity. Qed.

Lemma filter_nil_none (p : TrialRecord value -> bool) rs :
  (forall r, In r rs -> p r = false) -> filter p rs = [].
Proof.
  induction rs as [|a rs IH]; simpl; intro H; [reflexivity|].
  rewrite (H a (or_introl eq_refl)). apply IH.
  intros r Hr. apply H. right. exact Hr.
Qed.

Lemma groups_of_nil : groups_of (@nil (TrialRecord value)) [].
Proof.
  split; [constructor|]. split; [constructor|]. intros r k [].
Qed.

(** [place] keeps the groups those of the rows read so far. *)
Lemma groups_of_place rs gs r :
  groups_of rs gs -> groups_of (rs ++ [r]) (place gs r).
Proof.
  intros (S & F & Cov). unfold place.
  destruct (trial_type r) as [k|] eqn:T.
  - split; [apply add_sorted; exact S|]. split.
    + apply add_Forall with
        (P := fun kg => snd kg = filter (has_label (fst kg)) rs /\ snd kg <> []);
        [exact S| | | |exact F].
      * intros [k0 g] N [E NE]. simpl in *. split; [|exact NE].
        rewrite filter_snoc, (has_label_other _ _ _ T N), app_nil_r. exact E.
      * intros g [E NE]. simpl in *. split.
        -- rewrite filter_snoc, (proj2 (has_label_iff k r) T), E. reflexivity.
        -- intro H. apply app_eq_nil in H. destruct H as [_ H]. discriminate.
      * intro N. simpl. split; [|discriminate].
        rewrite filter_snoc, (proj2 (has_label_iff k r) T).
        rewrite filter_nil_none; [reflexivity|].
        intros r' Hr'. destruct (has_label k r') eqn:E; [|reflexivity].
        exfalso. apply N. apply (Cov r' k Hr'). apply has_label_iff. exact E.
    + intros r' k' Hin T'. apply keys_add.
      apply in_app_or in Hin. destruct Hin as [Hin|[<-|[]]].
      * right. exact (Cov _ _ Hin T').
      * left. congruence.
  - split; [exact S|]. split.
    + eapply Forall_impl; [|exact F]. intros [k0 g] [E NE]. simpl in *.
      split; [|exact NE]. rewrite filter_snoc.
      unfold has_label at 2. rewrite T, app_nil_r. exact E.
    + intros r' k' Hin T'. apply in_app_or in Hin.
      destruct Hin as [Hin|[<-|[]]]; [exact (Cov _ _ Hin T')|congruence].
Qed.

(** [groupby] yields the groups of the rows of the frame. *)
Lemma group_rows_spec rs : groups_of rs (group_rows rs).
Proof.
  unfold group_rows. induction rs as [|r rs IH] using rev_ind.
  - exact groups_of_nil.
  - rewrite fold_left_app. simpl. apply groups_of_place. exact IH.
Qed.

Lemma groups_of_key rs gs k :
  groups_of rs gs ->
  (In k (keys gs) <-> exists r, In r rs /\ trial_type r = Some k).
Proof.
  intros (S & F & Cov). split.
  - intro Hk. apply in_map_iff in Hk. destruct Hk as ([k0 g] & E & Hin).
    simpl in E. subst k0. rewrite Forall_forall in F.
    destruct (F _ Hin) as [E NE]. simpl in *.
    destruct g as [|r g]; [contradiction|].
    assert (Hr : In r (filter (has_label k) rs)) by (rewrite <- E; left; reflexivity).
    apply filter_In in Hr. destruct Hr as [Hr L].
    exists r. split; [exact Hr|apply has_label_iff; exact L].
  - intros (r & Hr & T). exact (Cov r k Hr T).
Qed.

(** The groups of given rows are unique. *)
Lemma groups_of_unique rs gs1 gs2 :
  groups_of rs gs1 -> groups_of rs gs2 -> gs1 = gs2.
Proof.
  intros G1 G2.
  assert (K : keys gs1 = keys gs2).
  { apply sorted_members_eq; [apply G1|apply G2|].
    intro k. rewrite (groups_of_key _ _ k G1), (groups_of_key _ _ k G2).
    reflexivity. }
  destruct G1 as (_ & F1 & _), G2 as (_ & F2 & _).
  clear -K F1 F2. revert gs2 K F2.
  induction F1 as [|[k1 g1] gs1 [E1 _] F1 IH]; intros gs2 K F2.
  - destruct gs2; [reflexivity|discriminate].
  - destruct F2 as [|[k2 g2] gs2 [E2 _] F2]; [discriminate|].
    simpl in *. injection K as -> K. f_equal.
    + f_equal. congruence.
    + apply IH; assumption.
Qed.

End GroupFacts.

(** ** The loop *)

Section CellFacts.

Context {value : Type}.
Implicit Types (df : DataFrame value) (st b : Bunch value).
Implicit Types (gs : groups value) (rs : list (TrialRecord value)).

Lemma has_column_sub (cols : list string) rs1 rs2 (c : string) :
  has_column (mkFrame cols rs1) c = has_column (mkFrame cols rs2) c.
Proof. reflexivity. Qed.

(** The loop over the groups of a frame with header [cols], from the
    lists [st]. *)
Lemma for_each_groups (cols : list string) gs st :
  for_each (map (fun kg => (fst kg, mkFrame cols (snd kg))) gs) st =
  match gs with
  | [] => Ok st
  | _ :: _ =>
      if existsb (String.eqb "onset") cols
      then if existsb (String.eqb "duration") cols
           then Ok (mkBunch (conditions st ++ keys gs)
                      (onsets st ++ map (fun kg => map onset (snd kg)) gs)
                      (durations st ++ map (fun kg => map duration (snd kg)) gs))
           else Raise (AttributeError "duration")
      else Raise (AttributeError "onset")
  end.
Proof.
  revert st. induction gs as [|[k g] gs IH]; intro st; [reflexivity|].
  cbn [map for_each fst snd]. unfold loop_body, onset_tolist, duration_tolist.
  unfold has_column. cbn [columns rows fst snd].
  destruct (existsb (String.eqb "onset") cols) eqn:O; [|reflexivity].
  destruct (existsb (String.eqb "duration") cols) eqn:D; [|reflexivity].
  cbn [bind]. rewrite IH. destruct gs as [|kg gs].
  - reflexivity.
  - cbn [conditions onsets durations keys map fst snd].
    rewrite <- !app_assoc. reflexivity.
Qed.

(** The cell, case by case. *)
Lemma subject_info_cases df :
  subject_info df =
  if has_column df "trial_type"
  then match group_rows (rows df) with
       | [] => Ok (mkBunch [] [] [])
       | _ :: _ =>
           if has_column df "onset"
           then if has_column df "duration"
                then Ok (bunch_of (group_rows (rows df)))
                else Raise (AttributeError "duration")
           else Raise (AttributeError "onset")
       end
  else Raise (KeyError "trial_type").
Proof.
  unfold subject_info, groupby_trial_type.
  destruct (has_column df "trial_type"); [|reflexivity].
  cbn [bind]. rewrite for_each_groups. unfold has_column.
  destruct (group_rows (rows df)); reflexivity.
Qed.

Lemma required_columns_iff df :
  required_columns df = true <->
  has_column df "trial_type" = true /\ has_column df "onset" = true
  /\ has_column df "duration" = true.
Proof.
  unfold required_columns. rewrite !andb_true_iff. tauto.
Qed.

(** With the three columns present the cell returns the projections of
    the groups. *)
Lemma subject_info_ok df :
  required_columns df = true ->
  subject_info df = Ok (bunch_of (group_rows (rows df))).
Proof.
  intro H. apply required_columns_iff in H. destruct H as (T & O & D).
  rewrite subject_info_cases, T, O, D.
  destruct (group_rows (rows df)); reflexivity.
Qed.

Lemma nth_error_keys gs (i : nat) (k : string) :
  nth_error (keys gs) i = Some k ->
  exists g, nth_error gs i = Some (k, g).
Proof.
  unfold keys. rewrite nth_error_map.
  destruct (nth_error gs i) as [[k0 g]|]; simpl; intro H; [|discriminate].
  injection H as ->. exists g. reflexivity.
Qed.

(** Entry [i] of the result, read off the groups of the rows. *)
Lemma bunch_of_entry rs (i : nat) (k : string) :
  nth_error (conditions (bunch_of (group_rows rs))) i = Some k ->
  nth_error (onsets (bunch_of (group_rows rs))) i
    = Some (map onset (filter (has_label k) rs))
  /\ nth_error (durations (bunch_of (group_rows rs))) i
    = Some (map duration (filter (has_label k) rs)).
Proof.
  cbn [bunch_of conditions onsets durations]. intro H.
  destruct (nth_error_keys _ _ _ H) as [g Hg].
  rewrite !nth_error_map, Hg. cbn [option_map snd].
  destruct (group_rows_spec rs) as (_ & F & _).
  rewrite Forall_forall in F.
  destruct (F _ (nth_error_In _ _ Hg)) as [E _]. simpl in E.
  rewrite E. split; reflexivity.
Qed.

End CellFacts.

(** * Properties of the cell *)

Section Claims.

Context {value : Type}.
Implicit Types (df : DataFrame value) (b : Bunch value).
Implicit Types (rs : list (TrialRecord value)) (k c : string).

Lemma count_label_filter k rs :
  List.length (filter (has_label k) rs) = count_label k rs.
Proof.
  induction rs as [|r rs IH]; simpl; [reflexivity|].
  destruct (has_label k r); simpl; rewrite IH; reflexivity.
Qed.

(** C9. For every input with the three columns, the cell returns, and the
    condition labels it returns are in strictly ascending order of the
    label, whatever the order in which they first appear in the input. *)
Theorem conditions_ascending df :
  required_columns df = true ->
  exists b, subject_info df = Ok b /\ StronglySorted slt (conditions b).
Proof.
  intro H. exists (bunch_of (group_rows (rows df))).
  split; [apply subject_info_ok; exact H|].
  apply (group_rows_spec (rows df)).
Qed.

(** C2. For every input with the three columns, the three lists of the
    result have the same length, and at each index [i] the lengths of
    [onsets[i]] and of [durations[i]] both equal the number of input
    records whose [trial_type] is [conditions[i]]. *)
Theorem aligned_lengths df :
  required_columns df = true ->
  exists b, subject_info df = Ok b
    /\ List.length (conditions b) = List.length (onsets b)
    /\ List.length (onsets b) = List.length (durations b)
    /\ forall i c, nth_error (conditions b) i = Some c ->
         exists os ds,
           nth_error (onsets b) i = Some os
           /\ nth_error (durations b) i = Some ds
           /\ List.length os = count_label c (rows df)
           /\ List.length ds = count_label c (rows df).
Proof.
  intro H. exists (bunch_of (group_rows (rows df))).
  split; [apply subject_info_ok; exact H|].
  split; [|split].
  - cbn [bunch_of conditions onsets]. unfold keys.
    rewrite !length_map. reflexivity.
  - cbn [bunch_of durations onsets]. rewrite !length_map. reflexivity.
  - intros i c Hc. destruct (bunch_of_entry _ _ _ Hc) as [Ho Hd].
    eexists. eexists. split; [exact Ho|]. split; [exact Hd|].
    rewrite !length_map, count_label_filter. split; reflexivity.
Qed.

(** C3. For every input with the three columns and every index [i],
    [onsets[i]] and [durations[i]] are the onsets and the durations of
    one and the same subsequence of the input, the records whose
    [trial_type] is [conditions[i]], in input order: relative order is
    kept and each onset is paired with the duration of its record. *)
Theorem order_preserved df :
  required_columns df = true ->
  exists b, subject_info df = Ok b
    /\ forall i c, nth_error (conditions b) i = Some c ->
         nth_error (onsets b) i
           = Some (map onset (filter (has_label c) (rows df)))
         /\ nth_error (durations b) i
           = Some (map duration (filter (has_label c) (rows df))).
Proof.
  intro H. exists (bunch_of (group_rows (rows df))).
  split; [apply subject_info_ok; exact H|].
  intros i c Hc. exact (bunch_of_entry _ _ _ Hc).
Qed.

(** C6. For an input with no record (a frame that has the [trial_type]
    column and no row) the cell returns the [Bunch] whose three lists are
    empty. *)
Theorem empty_input df :
  has_column df "trial_type" = true ->
  rows df = [] ->
  subject_info df = Ok (mkBunch [] [] []).
Proof.
  intros T E. rewrite subject_info_cases, T, E. reflexivity.
Qed.

Lemma seen_iff k (seen : list string) :
  existsb (String.eqb k) seen = true <-> In k seen.
Proof.
  rewrite existsb_exists. split.
  - intros (x & Hx & E). apply String.eqb_eq in E. subst. exact Hx.
  - intro H. exists k. split; [exact H|apply String.eqb_refl].
Qed.

(** The specification's label list holds each label of the input once. *)
Lemma spec_first_seen_spec rs :
  NoDup (spec_first_seen rs)
  /\ forall k, In k (spec_first_seen rs)
       <-> exists r, In r rs /\ trial_type r = Some k.
Proof.
  unfold spec_first_seen. induction rs as [|r rs [ND M]] using rev_ind.
  - split; [constructor|]. intro k. split; [intros []|intros (r & [] & _)].
  - rewrite fold_left_app. cbn [fold_left]. unfold spec_see at 1 3.
    destruct (trial_type r) as [k0|] eqn:T.
    + destruct (existsb (String.eqb k0) (fold_left spec_see rs [])) eqn:E.
      * split; [exact ND|]. intro k. rewrite M. split.
        -- intros (r' & Hr' & T'). exists r'. split; [|exact T'].
           apply in_or_app. left. exact Hr'.
        -- intros (r' & Hr' & T'). apply in_app_or in Hr'.
           destruct Hr' as [Hr'|[<-|[]]]; [exists r'; split; assumption|].
           apply M. apply seen_iff. congruence.
      * assert (N : ~ In k0 (fold_left spec_see rs [])).
        { intro Hin. apply seen_iff in Hin. congruence. }
        split.
        -- apply (Permutation_NoDup (Permutation_cons_append _ k0)).
           constructor; assumption.
        -- intro k. rewrite in_app_iff, M. split.
           ++ intros [(r' & Hr' & T')|[<-|[]]].
              ** exists r'. split; [apply in_or_app; left; exact Hr'|exact T'].
              ** exists r. split; [apply in_or_app; right; left; reflexivity|exact T].
           ++ intros (r' & Hr' & T'). apply in_app_or in Hr'.
              destruct Hr' as [Hr'|[<-|[]]].
              ** left. exists r'. split; assumption.
              ** right. left. congruence.
    + split; [exact ND|]. intro k. rewrite M. split.
      * intros (r' & Hr' & T'). exists r'. split; [|exact T'].
        apply in_or_app. left. exact Hr'.
      * intros (r' & Hr' & T'). apply in_app_or in Hr'.
        destruct Hr' as [Hr'|[<-|[]]]; [exists r'; split; assumption|].
        congruence.
Qed.

(** C1, as the code has it. For every input with the three columns the
    cell returns, and [conditions] lists the distinct [trial_type] labels
    of the input, each once, in strictly ascending order of the label;
    [conditions[0]] is the smallest label of the input. The list is in
    order of first appearance exactly when the labels first appear in
    ascending order. *)
Theorem conditions_sorted_labels df :
  required_columns df = true ->
  exists b, subject_info df = Ok b
    /\ StronglySorted slt (conditions b)
    /\ Permutation (conditions b) (spec_first_seen (rows df))
    /\ (forall c r k, nth_error (conditions b) 0 = Some c ->
          In r (rows df) -> trial_type r = Some k -> c = k \/ slt c k)
    /\ (conditions b = spec_first_seen (rows df)
        <-> StronglySorted slt (spec_first_seen (rows df))).
Proof.
  intro H. exists (bunch_of (group_rows (rows df))).
  split; [apply subject_info_ok; exact H|].
  cbn [bunch_of conditions].
  pose proof (group_rows_spec (rows df)) as G.
  destruct (spec_first_seen_spec (rows df)) as [ND M].
  assert (S : StronglySorted slt (keys (group_rows (rows df)))) by apply G.
  assert (Same : forall k, In k (keys (group_rows (rows df)))
                   <-> In k (spec_first_seen (rows df))).
  { intro k. rewrite (groups_of_key _ _ k G), M. reflexivity. }
  split; [exact S|]. split; [|split].
  - apply NoDup_Permutation; [apply sorted_NoDup; exact S|exact ND|exact Same].
  - intros c r k Hc Hr T.
    assert (Hk : In k (keys (group_rows (rows df)))).
    { apply (groups_of_key _ _ k G). exists r. split; assumption. }
    destruct (keys (group_rows (rows df))) as [|c0 ks]; [destruct Hk|].
    simpl in Hc. injection Hc as ->. destruct Hk as [E|Hk]; [left; exact E|].
    right. inversion S as [|? ? _ F]; subst.
    rewrite Forall_forall in F. apply F. exact Hk.
  - split.
    + intro E. rewrite <- E. exact S.
    + intro S'. apply sorted_members_eq; assumption.
Qed.

Lemma labelled_iff (r : TrialRecord value) :
  labelled r = true <-> exists k, trial_type r = Some k.
Proof.
  unfold labelled. destruct (trial_type r) as [k|].
  - split; [intros _; exists k; reflexivity|reflexivity].
  - split; [discriminate|intros [k H]; discriminate].
Qed.

(** There is no group exactly when no row carries a label. *)
Lemma group_rows_nil_iff rs :
  group_rows rs = [] <-> existsb labelled rs = false.
Proof.
  pose proof (group_rows_spec rs) as G. split.
  - intro E. destruct (existsb labelled rs) eqn:X; [|reflexivity].
    apply existsb_exists in X. destruct X as (r & Hr & L).
    apply labelled_iff in L. destruct L as [k T].
    assert (Hk : In k (keys (group_rows rs))).
    { apply (groups_of_key _ _ k G). exists r. split; assumption. }
    rewrite E in Hk. destruct Hk.
  - intro X. destruct (group_rows rs) as [|[k g] gs] eqn:E; [reflexivity|].
    assert (Hk : In k (keys ((k, g) :: gs))) by (left; reflexivity).
    apply (groups_of_key _ _ k G) in Hk. destruct Hk as (r & Hr & T).
    assert (Y : existsb labelled rs = true).
    { apply existsb_exists. exists r. split; [exact Hr|].
      apply labelled_iff. exists k. exact T. }
    congruence.
Qed.

(** C5, as the code has it. The contents of a record never make the cell
    fail: with the three columns present it returns a [Bunch] whatever
    the cells hold (a null [trial_type], a null or non-numeric onset or
    duration). The cell fails only for a missing column: with [KeyError]
    when the frame has no [trial_type] column, and with [AttributeError]
    when at least one record carries a label and the frame has no [onset]
    column or, having one, no [duration] column. *)
Theorem failure_modes df :
  (required_columns df = true -> exists b, subject_info df = Ok b)
  /\ forall e, subject_info df = Raise e <->
       (has_column df "trial_type" = false /\ e = KeyError "trial_type")
       \/ (has_column df "trial_type" = true
           /\ existsb labelled (rows df) = true
           /\ ((has_column df "onset" = false /\ e = AttributeError "onset")
               \/ (has_column df "onset" = true
                   /\ has_column df "duration" = false
                   /\ e = AttributeError "duration"))).
Proof.
  split.
  - intro H. eexists. apply subject_info_ok. exact H.
  - intro e. rewrite subject_info_cases.
    destruct (has_column df "trial_type") eqn:T.
    + destruct (existsb labelled (rows df)) eqn:X.
      * destruct (group_rows (rows df)) as [|kg gs] eqn:E.
        { apply group_rows_nil_iff in E. congruence. }
        destruct (has_column df "onset"), (has_column df "duration");
          split;
          try (intro H; injection H as <-);
          try discriminate;
          try (right; repeat split; auto; fail);
          try (intros [[H _]|(_ & _ & [[H1 H2]|(H1 & H2 & H3)])];
               try discriminate; subst; reflexivity).
      * apply group_rows_nil_iff in X. rewrite X. split; [discriminate|].
        intros [[H _]|(_ & H & _)]; discriminate.
    + split.
      * intro H. injection H as <-. left. split; reflexivity.
      * intros [[_ ->]|(H & _)]; [reflexivity|discriminate].
Qed.

Lemma group_rows_dropna_from (gs : groups value) rs :
  fold_left place (filter labelled rs) gs = fold_left place rs gs.
Proof.
  revert gs. induction rs as [|r rs IH]; intro gs; [reflexivity|].
  cbn [filter fold_left]. unfold labelled at 1, place at 3.
  destruct (trial_type r) as [k|] eqn:T.
  - cbn [fold_left]. unfold place at 2. rewrite T. apply IH.
  - apply IH.
Qed.

(** C10. A record whose [trial_type] is null raises no error and leaves
    no trace in the result: for every input with the three columns the
    cell returns, and it returns what it returns on the input without
    those records. *)
Theorem null_label_dropped df :
  required_columns df = true ->
  exists b, subject_info df = Ok b /\ subject_info (dropna df) = Ok b.
Proof.
  intro H. exists (bunch_of (group_rows (rows df))).
  split; [apply subject_info_ok; exact H|].
  rewrite subject_info_ok by exact H.
  cbn [dropna rows]. unfold group_rows at 1.
  rewrite group_rows_dropna_from. reflexivity.
Qed.

(** Corresponding groups: same key, rows that agree but for [weight]. *)
Lemma add_same_but_weight k (r1 r2 : TrialRecord value) (gs1 gs2 : groups value) :
  same_but_weight r1 r2 ->
  Forall2 group_agrees gs1 gs2 ->
  Forall2 group_agrees (add_to_group k r1 gs1) (add_to_group k r2 gs2).
Proof.
  intros R F.
  assert (One : Forall2 same_but_weight [r1] [r2])
    by (constructor; [exact R|constructor]).
  induction F as [|[k1 g1] [k2 g2] gs1 gs2 [E G] F IH].
  - constructor; [split; [reflexivity|exact One]|constructor].
  - simpl in E. subst k2. simpl.
    destruct (String.compare k k1).
    + constructor; [|exact F]. split; [reflexivity|]. simpl.
      apply Forall2_app; [exact G|exact One].
    + constructor; [split; [reflexivity|exact One]|].
      constructor; [split; [reflexivity|exact G]|exact F].
    + constructor; [split; [reflexivity|exact G]|exact IH].
Qed.

Lemma group_rows_same_but_weight (rs1 rs2 : list (TrialRecord value)) :
  Forall2 same_but_weight rs1 rs2 ->
  Forall2 group_agrees (group_rows rs1) (group_rows rs2).
Proof.
  unfold group_rows. intro F.
  assert (G : Forall2 group_agrees
                (@nil (string * list (TrialRecord value))) [])
    by constructor.
  revert G. generalize (@nil (string * list (TrialRecord value))) at 1 3.
  generalize (@nil (string * list (TrialRecord value))).
  induction F as [|r1 r2 rs1 rs2 R F IH]; intros gs2 gs1 G; [exact G|].
  cbn [fold_left]. apply IH. unfold place.
  pose proof R as (_ & _ & Rt). rewrite <- Rt.
  destruct (trial_type r1); [|exact G].
  apply add_same_but_weight; [exact R|exact G].
Qed.

Lemma bunch_of_same_but_weight (gs1 gs2 : groups value) :
  Forall2 group_agrees gs1 gs2 ->
  bunch_of gs1 = bunch_of gs2.
Proof.
  intro F. unfold bunch_of, keys.
  induction F as [|[k1 g1] [k2 g2] gs1 gs2 [E G] F IH]; [reflexivity|].
  simpl in *. injection IH as Ik Io Id. subst k2.
  assert (P : map onset g1 = map onset g2 /\ map duration g1 = map duration g2).
  { clear -G. induction G as [|r1 r2 g1 g2 (Ro & Rd & _) G [IHo IHd]].
    - split; reflexivity.
    - simpl. rewrite Ro, Rd, IHo, IHd. split; reflexivity. }
  destruct P as [Po Pd]. rewrite Ik, Io, Id, Po, Pd. reflexivity.
Qed.

(** C8. The result does not depend on [weight]: two inputs with the same
    header whose records agree, one by one, on onset, duration and
    [trial_type] give the same outcome, the same [Bunch] or the same
    exception. *)
Theorem weight_unused (df1 df2 : DataFrame value) :
  columns df1 = columns df2 ->
  Forall2 same_but_weight (rows df1) (rows df2) ->
  subject_info df1 = subject_info df2.
Proof.
  intros C F. rewrite !subject_info_cases. unfold has_column. rewrite C.
  pose proof (group_rows_same_but_weight _ _ F) as G.
  rewrite (bunch_of_same_but_weight _ _ G).
  destruct G; reflexivity.
Qed.

(** *** Regrouping *)

Lemma shuffle_nil_l {A : Type} (l2 l : list A) : shuffle [] l2 l -> l = l2.
Proof.
  intro H. remember (@nil A) as l1 eqn:E.
  induction H as [|x l1 l2 l H IH|x l1 l2 l H IH]; [reflexivity|discriminate|].
  f_equal. apply IH. exact E.
Qed.

Lemma shuffle_nil_r {A : Type} (l1 l : list A) : shuffle l1 [] l -> l = l1.
Proof.
  intro H. remember (@nil A) as l2 eqn:E.
  induction H as [|x l1 l2 l H IH|x l1 l2 l H IH]; [reflexivity| |discriminate].
  f_equal. apply IH. exact E.
Qed.

Lemma shuffle_filter {A : Type} (p : A -> bool) (l1 l2 l : list A) :
  shuffle l1 l2 l -> shuffle (filter p l1) (filter p l2) (filter p l).
Proof.
  induction 1 as [|x l1 l2 l H IH|x l1 l2 l H IH]; simpl.
  - constructor.
  - destruct (p x); [constructor|]; exact IH.
  - destruct (p x); [constructor|]; exact IH.
Qed.

Lemma shuffle_In {A : Type} (l1 l2 l : list A) (x : A) :
  shuffle l1 l2 l -> In x l -> In x l1 \/ In x l2.
Proof.
  induction 1 as [|y l1 l2 l H IH|y l1 l2 l H IH]; simpl; intuition.
Qed.

Lemma shuffle_app {A : Type} (l1 l2 : list A) : shuffle l1 l2 (l1 ++ l2).
Proof.
  induction l1 as [|x l1 IH]; simpl.
  - induction l2 as [|y l2 IH]; constructor. exact IH.
  - constructor. exact IH.
Qed.

Lemma interleaving_concat {A : Type} (bs : list (list A)) :
  interleaving bs (List.concat bs).
Proof.
  induction bs as [|b0 bs IH]; simpl.
  - constructor.
  - econstructor; [exact IH|apply shuffle_app].
Qed.

Lemma filter_all (p : TrialRecord value -> bool) rs :
  (forall r, In r rs -> p r = true) -> filter p rs = rs.
Proof.
  induction rs as [|a rs IH]; simpl; intro H; [reflexivity|].
  rewrite (H a (or_introl eq_refl)). f_equal. apply IH.
  intros r Hr. apply H. right. exact Hr.
Qed.

(** Groups whose rows carry the key of their group, interleaved, are the
    groups of the interleaving. *)
Lemma interleaving_groups (gs : groups value) rs :
  StronglySorted slt (keys gs) ->
  Forall (fun kg => Forall (fun r => trial_type r = Some (fst kg)) (snd kg)
                    /\ snd kg <> []) gs ->
  interleaving (map snd gs) rs ->
  groups_of rs gs.
Proof.
  revert rs. induction gs as [|[k g] gs IH]; intros rs S F I.
  - inversion I; subst. exact groups_of_nil.
  - cbn [map snd] in I. inversion I as [|? ? l ? I' Sh]; subst.
    inversion S as [|? ? S' Lt]; subst.
    inversion F as [|? ? [Lab NE] F']; subst. cbn [fst snd] in Lab, NE.
    rewrite Forall_forall in Lab, Lt.
    destruct (IH l S' F' I') as (_ & Fl & Cov).
    split; [exact S|]. split; [constructor|].
    + cbn [fst snd]. split; [|exact NE].
      pose proof (shuffle_filter (has_label k) _ _ _ Sh) as Sf.
      rewrite (filter_all _ g) in Sf
        by (intros r Hr; apply has_label_iff, Lab, Hr).
      rewrite (filter_nil_none _ l) in Sf.
      * symmetry. exact (shuffle_nil_r _ _ Sf).
      * intros r Hr. destruct (has_label k r) eqn:E; [|reflexivity].
        apply has_label_iff in E. exfalso.
        exact (slt_irrefl _ (Lt _ (Cov r k Hr E))).
    + rewrite Forall_forall in Fl |- *. intros [k' g'] Hin.
      destruct (Fl _ Hin) as [E NE']. cbn [fst snd] in *.
      split; [|exact NE'].
      pose proof (shuffle_filter (has_label k') _ _ _ Sh) as Sf.
      rewrite (filter_nil_none _ g) in Sf.
      * rewrite (shuffle_nil_l _ _ Sf). exact E.
      * intros r Hr. apply (has_label_other k); [apply Lab, Hr|].
        intro N. subst k'.
        apply (slt_irrefl k), Lt. apply (in_map fst _ _ Hin).
    + intros r k' Hr T. destruct (shuffle_In _ _ _ _ Sh Hr) as [Hg|Hl].
      * left. rewrite (Lab _ Hg) in T. cbn [fst]. congruence.
      * right. exact (Cov r k' Hl T).
Qed.

Lemma block_unweighted k rs :
  Forall (fun r => trial_type r = Some k) rs ->
  block k (map onset rs) (map duration rs) = map unweighted rs.
Proof.
  unfold block. induction 1 as [|r rs T F IH]; [reflexivity|].
  simpl. rewrite IH. unfold unweighted at 2. rewrite T. reflexivity.
Qed.

Lemma blocks_bunch_of (gs : groups value) :
  Forall (fun kg => Forall (fun r => trial_type r = Some (fst kg)) (snd kg)) gs ->
  blocks (bunch_of gs) = map (fun kg => map unweighted (snd kg)) gs.
Proof.
  unfold blocks, bunch_of, keys. cbn [conditions onsets durations].
  induction 1 as [|[k g] gs Lab F IH]; [reflexivity|].
  cbn [map combine fst snd] in *. rewrite IH, (block_unweighted _ _ Lab).
  reflexivity.
Qed.

Lemma groups_of_labels rs (gs : groups value) :
  groups_of rs gs ->
  Forall (fun kg => Forall (fun r => trial_type r = Some (fst kg)) (snd kg)) gs.
Proof.
  intros (_ & F & _). eapply Forall_impl; [|exact F].
  intros [k g] [E _]. cbn [fst snd] in *. rewrite E.
  apply Forall_forall. intros r Hr. apply filter_In in Hr.
  apply has_label_iff, Hr.
Qed.

(** Regrouping any interleaving of the blocks of the groups gives the
    same [Bunch]. *)
Lemma regroup_interleaving rs rs' :
  interleaving (blocks (bunch_of (group_rows rs))) rs' ->
  bunch_of (group_rows rs') = bunch_of (group_rows rs).
Proof.
  pose proof (group_rows_spec rs) as G.
  pose proof (groups_of_labels _ _ G) as Lab.
  rewrite (blocks_bunch_of _ Lab). intro I.
  destruct G as (S & F & _).
  assert (G' : groups_of rs'
            (map (fun kg => (fst kg, map unweighted (snd kg))) (group_rows rs))).
  { apply interleaving_groups.
    - unfold keys. rewrite map_map. exact S.
    - rewrite Forall_forall in F, Lab |- *. intros kg' Hin.
      apply in_map_iff in Hin. destruct Hin as (kg & <- & Hin).
      cbn [fst snd]. split.
      + apply Forall_forall. intros r Hr. apply in_map_iff in Hr.
        destruct Hr as (r0 & <- & Hr0). pose proof (Lab _ Hin) as L.
        rewrite Forall_forall in L. exact (L _ Hr0).
      + destruct (F _ Hin) as [_ NE]. destruct (snd kg); [contradiction|].
        discriminate.
    - rewrite map_map. exact I. }
  rewrite (groups_of_unique _ _ _ (group_rows_spec rs') G').
  unfold bunch_of, keys. rewrite !map_map. cbn [fst snd]. f_equal.
  - apply map_ext. intros kg. rewrite map_map. reflexivity.
  - apply map_ext. intros kg. rewrite map_map. reflexivity.
Qed.

(** C7. For every input with the three columns the cell returns a
    [Bunch] [b], and grouping again a flattened reconstruction of [b]
    returns [b]: this holds for the blocks of [b] laid end to end, and
    for every interleaving of them that keeps each condition's records in
    their order. *)
Theorem regrouping_idempotent df :
  required_columns df = true ->
  exists b, subject_info df = Ok b
    /\ subject_info (mkFrame (columns df) (flatten b)) = Ok b
    /\ forall rs', interleaving (blocks b) rs' ->
         subject_info (mkFrame (columns df) rs') = Ok b.
Proof.
  intro H. exists (bunch_of (group_rows (rows df))).
  split; [apply subject_info_ok; exact H|].
  assert (A : forall rs',
            interleaving (blocks (bunch_of (group_rows (rows df)))) rs' ->
            subject_info (mkFrame (columns df) rs')
            = Ok (bunch_of (group_rows (rows df)))).
  { intros rs' I. rewrite subject_info_ok by exact H.
    cbn [rows]. rewrite (regroup_interleaving _ _ I). reflexivity. }
  split; [|exact A].
  apply A. apply interleaving_concat.
Qed.

End Claims.

(** C4. On the five records of the specification's example the cell
    returns conditions [["Finger"; "Foot"; "Lips"]], onsets
    [[[10; 100]; [40; 130]; [70]]] and durations
    [[[15; 15]; [15; 15]; [15]]]. *)
Theorem five_trials_grouped :
  subject_info five_trials =
  Ok (mkBunch ["Finger"; "Foot"; "Lips"]
        [[10; 100]; [40; 130]; [70]]%Z
        [[15; 15]; [15; 15]; [15]]%Z).
Proof. reflexivity. Qed.

(** ** Instances on the example frames *)

Lemma conditions_ascending_witness :
  exists b, subject_info foot_first = Ok b /\ StronglySorted slt (conditions b).
Proof. apply (conditions_ascending foot_first). reflexivity. Defined.

Lemma aligned_lengths_witness :
  exists b, subject_info five_trials = Ok b
    /\ List.length (conditions b) = List.length (onsets b)
    /\ List.length (onsets b) = List.length (durations b)
    /\ forall i c, nth_error (conditions b) i = Some c ->
         exists os ds,
           nth_error (onsets b) i = Some os
           /\ nth_error (durations b) i = Some ds
           /\ List.length os = count_label c (rows five_trials)
           /\ List.length ds = count_label c (rows five_trials).
Proof. apply (aligned_lengths five_trials). reflexivity. Defined.

Lemma order_preserved_witness :
  exists b, subject_info five_trials = Ok b
    /\ forall i c, nth_error (conditions b) i = Some c ->
         nth_error (onsets b) i
           = Some (map onset (filter (has_label c) (rows five_trials)))
         /\ nth_error (durations b) i
           = Some (map duration (filter (has_label c) (rows five_trials))).
Proof. apply (order_preserved five_trials). reflexivity. Defined.

Lemma empty_input_witness :
  subject_info (mkFrame ["onset"; "duration"; "weight"; "trial_type"]
                  (@nil (TrialRecord Z)))
  = Ok (mkBunch [] [] []).
Proof. apply empty_input; reflexivity. Defined.

(** C1 as stated fails: in [foot_first] the label "Foot" appears first,
    yet the returned [conditions] start with "Finger" and differ from the
    labels in order of first appearance. *)
Lemma conditions_not_first_appearance :
  exists b, subject_info foot_first = Ok b
    /\ conditions b <> spec_first_seen (rows foot_first)
    /\ forall r, hd_error (rows foot_first) = Some r ->
         nth_error (conditions b) 0 <> trial_type r.
Proof.
  eexists. split; [reflexivity|]. split.
  - cbv. discriminate.
  - intros r Hr. injection Hr as <-. cbv. discriminate.
Qed.

Lemma conditions_sorted_labels_witness :
  exists b, subject_info foot_first = Ok b
    /\ StronglySorted slt (conditions b)
    /\ Permutation (conditions b) (spec_first_seen (rows foot_first))
    /\ (forall c r k, nth_error (conditions b) 0 = Some c ->
          In r (rows foot_first) -> trial_type r = Some k -> c = k \/ slt c k)
    /\ (conditions b = spec_first_seen (rows foot_first)
        <-> StronglySorted slt (spec_first_seen (rows foot_first))).
Proof. apply (conditions_sorted_labels foot_first). reflexivity. Defined.

(** C5 as stated fails: [ragged] has a record without [trial_type], one
    without onset and one whose duration is not a number, and the cell
    raises nothing: it returns a [Bunch], the first record dropped and
    the odd cells copied. *)
Lemma ragged_accepted :
  subject_info ragged =
  Ok (mkBunch ["Foot"] [[NaN; Num 70]] [[Num 15; Text "long"]])
  /\ forall e, subject_info ragged <> Raise e.
Proof. split; [reflexivity|]. intro e. discriminate. Qed.

Lemma failure_modes_witness :
  (exists b, subject_info ragged = Ok b)
  /\ subject_info no_trial_type = Raise (KeyError "trial_type")
  /\ subject_info no_onset = Raise (AttributeError "onset").
Proof.
  split; [|split].
  - apply (proj1 (failure_modes ragged)). reflexivity.
  - apply (proj2 (failure_modes no_trial_type)). left.
    split; reflexivity.
  - apply (proj2 (failure_modes no_onset)). right.
    split; [reflexivity|]. split; [reflexivity|]. left.
    split; reflexivity.
Defined.

Lemma null_label_dropped_witness :
  exists b, subject_info ragged = Ok b /\ subject_info (dropna ragged) = Ok b.
Proof. apply (null_label_dropped ragged). reflexivity. Defined.

Lemma weight_unused_witness :
  subject_info events_head = subject_info events_head_reweighted.
Proof.
  apply (weight_unused events_head events_head_reweighted).
  - reflexivity.
  - simpl. repeat constructor.
Defined.

Lemma regrouping_idempotent_witness :
  exists b, subject_info events_head = Ok b
    /\ subject_info (mkFrame (columns events_head) (flatten b)) = Ok b
    /\ forall rs', interleaving (blocks b) rs' ->
         subject_info (mkFrame (columns events_head) rs') = Ok b.
Proof. apply (regrouping_idempotent events_head). reflexivity. Defined.

(** * More on the grouping cell *)

Section CellExtras.

Context {value : Type}.
Implicit Types (df : DataFrame value) (b : Bunch value).
Implicit Types (rs : list (TrialRecord value)) (gs : groups value).
Implicit Types (k c : string).

Lemma onsets_entry gs (i : nat) (os : list value) :
  nth_error (onsets (bunch_of gs)) i = Some os ->
  exists kg, nth_error gs i = Some kg /\ os = map onset (snd kg).
Proof.
  cbn [bunch_of onsets]. rewrite nth_error_map.
  destruct (nth_error gs i) as [kg|]; [|discriminate].
  intro H. injection H as <-. exists kg. split; reflexivity.
Qed.

Lemma durations_entry gs (i : nat) (ds : list value) :
  nth_error (durations (bunch_of gs)) i = Some ds ->
  exists kg, nth_error gs i = Some kg /\ ds = map duration (snd kg).
Proof.
  cbn [bunch_of durations]. rewrite nth_error_map.
  destruct (nth_error gs i) as [kg|]; [|discriminate].
  intro H. injection H as <-. exists kg. split; reflexivity.
Qed.

Lemma conditions_entry gs (i : nat) (kg : string * list (TrialRecord value)) :
  nth_error gs i = Some kg ->
  nth_error (conditions (bunch_of gs)) i = Some (fst kg).
Proof.
  intro H. cbn [bunch_of conditions]. unfold keys.
  rewrite nth_error_map, H. reflexivity.
Qed.

Lemma group_not_empty rs (i : nat) (kg : string * list (TrialRecord value)) :
  nth_error (group_rows rs) i = Some kg -> snd kg <> [].
Proof.
  intro H. destruct (group_rows_spec rs) as (_ & F & _).
  rewrite Forall_forall in F. apply (F kg). exact (nth_error_In _ _ H).
Qed.

(** X1. For every input with the three columns, no entry of [onsets] or
    of [durations] is empty: a condition is listed only when a record
    carries it. *)
Theorem no_empty_entry df :
  required_columns df = true ->
  exists b, subject_info df = Ok b
    /\ (forall i os, nth_error (onsets b) i = Some os -> os <> [])
    /\ (forall i ds, nth_error (durations b) i = Some ds -> ds <> []).
Proof.
  intro H. exists (bunch_of (group_rows (rows df))).
  split; [apply subject_info_ok; exact H|]. split.
  - intros i os Hi. destruct (onsets_entry _ _ _ Hi) as (kg & Hk & ->).
    pose proof (group_not_empty _ _ _ Hk) as NE.
    destruct (snd kg); [contradiction|discriminate].
  - intros i ds Hi. destruct (durations_entry _ _ _ Hi) as (kg & Hk & ->).
    pose proof (group_not_empty _ _ _ Hk) as NE.
    destruct (snd kg); [contradiction|discriminate].
Qed.

Lemma add_to_group_rows k (r : TrialRecord value) gs :
  Permutation (List.concat (map snd (add_to_group k r gs)))
              (List.concat (map snd gs) ++ [r]).
Proof.
  induction gs as [|[k0 g] gs IH]; cbn [add_to_group].
  - apply Permutation_refl.
  - destruct (String.compare k k0); cbn [map snd List.concat].
    + rewrite <- !app_assoc. apply Permutation_app_head.
      apply Permutation_app_comm.
    + apply (Permutation_cons_append (g ++ List.concat (map snd gs)) r).
    + rewrite <- app_assoc. apply Permutation_app_head. exact IH.
Qed.

Lemma group_rows_rows_from gs rs :
  Permutation (List.concat (map snd (fold_left place rs gs)))
              (List.concat (map snd gs) ++ filter labelled rs).
Proof.
  revert gs. induction rs as [|r rs IH]; intro gs; cbn [fold_left filter].
  - rewrite app_nil_r. apply Permutation_refl.
  - rewrite IH. unfold place, labelled at 2.
    destruct (trial_type r) as [k|].
    + rewrite add_to_group_rows, <- app_assoc. apply Permutation_refl.
    + apply Permutation_refl.
Qed.

(** X2. Nothing is lost, repeated or made up: for every input with the
    three columns, the (onset, duration, label) triples read off the
    result are, up to order, exactly those of the input records that have
    a [trial_type]. *)
Theorem records_conserved df :
  required_columns df = true ->
  exists b, subject_info df = Ok b
    /\ Permutation (flatten b)
                   (map unweighted (filter labelled (rows df))).
Proof.
  intro H. exists (bunch_of (group_rows (rows df))).
  split; [apply subject_info_ok; exact H|].
  unfold flatten.
  rewrite (blocks_bunch_of _ (groups_of_labels _ _ (group_rows_spec (rows df)))).
  rewrite <- (map_map snd (map unweighted)), <- concat_map.
  apply Permutation_map. unfold group_rows.
  rewrite group_rows_rows_from. apply Permutation_refl.
Qed.

(** The groups depend on the rows only through the rows of each label. *)
Lemma group_rows_by_label rs1 rs2 :
  (forall k, filter (has_label k) rs1 = filter (has_label k) rs2) ->
  group_rows rs1 = group_rows rs2.
Proof.
  intro E. apply (groups_of_unique rs2); [|apply group_rows_spec].
  destruct (group_rows_spec rs1) as (S & F & Cov).
  split; [exact S|]. split.
  - eapply Forall_impl; [|exact F]. intros kg [Eg NE].
    split; [|exact NE]. rewrite <- E. exact Eg.
  - intros r k Hr T.
    assert (Hin : In r (filter (has_label k) rs1)).
    { rewrite E. apply filter_In. split; [exact Hr|].
      apply has_label_iff. exact T. }
    apply filter_In in Hin. exact (Cov r k (proj1 Hin) T).
Qed.

(** X3. Only the order of the records within a condition matters: two
    inputs with the same header in which every label is carried by the
    same records in the same order give the same outcome, however the
    records of different labels are placed with respect to each other. *)
Theorem order_across_conditions_irrelevant (df1 df2 : DataFrame value) :
  columns df1 = columns df2 ->
  (forall k, filter (has_label k) (rows df1) = filter (has_label k) (rows df2)) ->
  subject_info df1 = subject_info df2.
Proof.
  intros C E. rewrite !subject_info_cases. unfold has_column.
  rewrite C, (group_rows_by_label _ _ E). reflexivity.
Qed.

Lemma filter_Permutation (p : TrialRecord value -> bool) rs1 rs2 :
  Permutation rs1 rs2 -> Permutation (filter p rs1) (filter p rs2).
Proof.
  induction 1 as [|x l1 l2 P IH|x y l|l1 l2 l3 P1 IH1 P2 IH2]; simpl.
  - constructor.
  - destruct (p x); [constructor|]; exact IH.
  - destruct (p x), (p y); try apply Permutation_refl. constructor.
  - exact (Permutation_trans IH1 IH2).
Qed.

Lemma keys_Permutation rs1 rs2 :
  Permutation rs1 rs2 -> keys (group_rows rs1) = keys (group_rows rs2).
Proof.
  intro P.
  pose proof (group_rows_spec rs1) as G1. pose proof (group_rows_spec rs2) as G2.
  apply sorted_members_eq; [apply G1|apply G2|].
  intro k. rewrite (groups_of_key _ _ k G1), (groups_of_key _ _ k G2).
  split; intros (r & Hr & T); exists r; (split; [|exact T]).
  - exact (Permutation_in _ P Hr).
  - exact (Permutation_in _ (Permutation_sym P) Hr).
Qed.

(** X4. Shuffling the records of the input leaves [conditions]
    unchanged, and leaves every entry of [onsets] and of [durations] with
    the same values, possibly in another order. *)
Theorem shuffled_input (df1 df2 : DataFrame value) :
  required_columns df1 = true ->
  columns df1 = columns df2 ->
  Permutation (rows df1) (rows df2) ->
  exists b1 b2, subject_info df1 = Ok b1 /\ subject_info df2 = Ok b2
    /\ conditions b1 = conditions b2
    /\ (forall i os1 os2, nth_error (onsets b1) i = Some os1 ->
          nth_error (onsets b2) i = Some os2 -> Permutation os1 os2)
    /\ (forall i ds1 ds2, nth_error (durations b1) i = Some ds1 ->
          nth_error (durations b2) i = Some ds2 -> Permutation ds1 ds2).
Proof.
  intros H C P.
  assert (H2 : required_columns df2 = true).
  { unfold required_columns, has_column in *. rewrite <- C. exact H. }
  exists (bunch_of (group_rows (rows df1))), (bunch_of (group_rows (rows df2))).
  split; [apply subject_info_ok; exact H|].
  split; [apply subject_info_ok; exact H2|].
  pose proof (keys_Permutation _ _ P) as K.
  split; [exact K|]. split.
  - intros i os1 os2 H1 H2'.
    destruct (onsets_entry _ _ _ H1) as (kg1 & Hk1 & _).
    pose proof (conditions_entry _ _ _ Hk1) as C1.
    assert (C2 : nth_error (conditions (bunch_of (group_rows (rows df2)))) i
                 = Some (fst kg1)).
    { cbn [bunch_of conditions] in *. rewrite <- K. exact C1. }
    destruct (bunch_of_entry _ _ _ C1) as [E1 _].
    destruct (bunch_of_entry _ _ _ C2) as [E2 _].
    rewrite E1 in H1. rewrite E2 in H2'.
    injection H1 as <-. injection H2' as <-.
    apply Permutation_map, filter_Permutation, P.
  - intros i ds1 ds2 H1 H2'.
    destruct (durations_entry _ _ _ H1) as (kg1 & Hk1 & _).
    pose proof (conditions_entry _ _ _ Hk1) as C1.
    assert (C2 : nth_error (conditions (bunch_of (group_rows (rows df2)))) i
                 = Some (fst kg1)).
    { cbn [bunch_of conditions] in *. rewrite <- K. exact C1. }
    destruct (bunch_of_entry _ _ _ C1) as [_ E1].
    destruct (bunch_of_entry _ _ _ C2) as [_ E2].
    rewrite E1 in H1. rewrite E2 in H2'.
    injection H1 as <-. injection H2' as <-.
    apply Permutation_map, filter_Permutation, P.
Qed.

Lemma label_listed rs k :
  (exists r, In r rs /\ trial_type r = Some k) ->
  exists j, nth_error (conditions (bunch_of (group_rows rs))) j = Some k.
Proof.
  intro H. apply In_nth_error.
  apply (groups_of_key _ _ k (group_rows_spec rs)). exact H.
Qed.

(** How the entries grow when records are appended. *)
Lemma grown_entries rs rs' (i : nat) c :
  nth_error (conditions (bunch_of (group_rows rs))) i = Some c ->
  exists j,
    nth_error (conditions (bunch_of (group_rows (rs ++ rs')))) j = Some c
    /\ nth_error (onsets (bunch_of (group_rows rs))) i
       = Some (map onset (filter (has_label c) rs))
    /\ nth_error (onsets (bunch_of (group_rows (rs ++ rs')))) j
       = Some (map onset (filter (has_label c) rs)
               ++ map onset (filter (has_label c) rs'))
    /\ nth_error (durations (bunch_of (group_rows rs))) i
       = Some (map duration (filter (has_label c) rs))
    /\ nth_error (durations (bunch_of (group_rows (rs ++ rs')))) j
       = Some (map duration (filter (has_label c) rs)
               ++ map duration (filter (has_label c) rs')).
Proof.
  intro Hc. destruct (bunch_of_entry _ _ _ Hc) as [Ho Hd].
  assert (L : exists r, In r (rs ++ rs') /\ trial_type r = Some c).
  { apply nth_error_In in Hc.
    apply (groups_of_key _ _ c (group_rows_spec rs)) in Hc.
    destruct Hc as (r & Hr & T). exists r. split; [|exact T].
    apply in_or_app. left. exact Hr. }
  destruct (label_listed _ _ L) as [j Hj]. exists j.
  destruct (bunch_of_entry _ _ _ Hj) as [Ho' Hd'].
  rewrite filter_app, !map_app in Ho', Hd'.
  repeat split; assumption.
Qed.

(** X5. Appending records to the input only extends the result: every
    condition of the shorter input is still listed, and its onsets and
    durations are the former ones followed by those of the appended
    records of that condition, in their order. *)
Theorem appended_records (cols : list string) rs rs' :
  required_columns (mkFrame cols rs) = true ->
  exists b b', subject_info (mkFrame cols rs) = Ok b
    /\ subject_info (mkFrame cols (rs ++ rs')) = Ok b'
    /\ forall i c, nth_error (conditions b) i = Some c ->
         exists j os ds,
           nth_error (conditions b') j = Some c
           /\ nth_error (onsets b) i = Some os
           /\ nth_error (onsets b') j
              = Some (os ++ map onset (filter (has_label c) rs'))
           /\ nth_error (durations b) i = Some ds
           /\ nth_error (durations b') j
              = Some (ds ++ map duration (filter (has_label c) rs')).
Proof.
  intro H.
  exists (bunch_of (group_rows rs)), (bunch_of (group_rows (rs ++ rs'))).
  split; [exact (subject_info_ok (mkFrame cols rs) H)|].
  split; [exact (subject_info_ok (mkFrame cols (rs ++ rs')) H)|].
  intros i c Hc. destruct (grown_entries rs rs' i c Hc) as (j & Hj).
  exists j. eexists. eexists. exact Hj.
Qed.

Lemma onsets_concat gs :
  List.concat (onsets (bunch_of gs)) = map onset (List.concat (map snd gs)).
Proof.
  cbn [bunch_of onsets]. rewrite concat_map, map_map. reflexivity.
Qed.

(** X6. Grouping what [head()] shows gives a beginning of the grouping of
    the whole frame: at most five onsets in all, every condition of the
    head a condition of the frame, and each of its entries a prefix of
    the entry of the frame. *)
Theorem head_grouped df :
  required_columns df = true ->
  exists bh b, subject_info (head df) = Ok bh /\ subject_info df = Ok b
    /\ List.length (List.concat (onsets bh)) <= 5
    /\ forall i c, nth_error (conditions bh) i = Some c ->
         exists j os ds os' ds',
           nth_error (conditions b) j = Some c
           /\ nth_error (onsets bh) i = Some os
           /\ nth_error (onsets b) j = Some (os ++ os')
           /\ nth_error (durations bh) i = Some ds
           /\ nth_error (durations b) j = Some (ds ++ ds').
Proof.
  intro H.
  exists (bunch_of (group_rows (firstn 5 (rows df)))),
         (bunch_of (group_rows (rows df))).
  split; [exact (subject_info_ok (head df) H)|].
  split; [exact (subject_info_ok df H)|]. split.
  - rewrite onsets_concat, length_map. unfold group_rows.
    rewrite (Permutation_length (group_rows_rows_from [] _)).
    cbn [map List.concat app].
    eapply Nat.le_trans; [apply filter_length_le|apply firstn_le_length].
  - intros i c Hc.
    destruct (grown_entries _ (skipn 5 (rows df)) i c Hc) as (j & Hj).
    rewrite firstn_skipn in Hj.
    exists j. do 4 eexists. exact Hj.
Qed.

End CellExtras.

(** ** Converting the values *)

Section ConversionFacts.

Context {A B : Type} (f : A -> B).

Lemma add_to_group_map (k : string) (r : TrialRecord A) (gs : groups A) :
  add_to_group k (map_record f r) (map_groups f gs)
  = map_groups f (add_to_group k r gs).
Proof.
  induction gs as [|[k0 g] gs IH]; [reflexivity|].
  cbn [map_groups map add_to_group fst snd].
  destruct (String.compare k k0); cbn [map fst snd].
  - rewrite map_app. reflexivity.
  - reflexivity.
  - f_equal. exact IH.
Qed.

Lemma place_map (gs : groups A) (r : TrialRecord A) :
  place (map_groups f gs) (map_record f r) = map_groups f (place gs r).
Proof.
  unfold place. cbn [map_record trial_type].
  destruct (trial_type r); [apply add_to_group_map|reflexivity].
Qed.

(** Grouping commutes with a conversion of the values. *)
Lemma group_rows_map (rs : list (TrialRecord A)) :
  group_rows (map (map_record f) rs) = map_groups f (group_rows rs).
Proof.
  unfold group_rows. change (@nil (string * list (TrialRecord B)))
    with (map_groups f []).
  generalize (@nil (string * list (TrialRecord A))).
  induction rs as [|r rs IH]; intro gs; [reflexivity|].
  cbn [map fold_left]. rewrite place_map. apply IH.
Qed.



End ConversionFacts.

(** * The cell that shows the groups *)

Section PrintFacts.

Context {value : Type}.
Implicit Types (df : DataFrame value) (rs : list (TrialRecord value)).
Implicit Types (gi : groups (nat * value)) (k : string).

Lemma untag (i : nat) (r : TrialRecord value) : map_record snd (tag i r) = r.
Proof. destruct r as [o d [w|] t]; reflexivity. Qed.

Lemma untag_rows (i : nat) rs :
  map (map_record snd) (with_index_from i rs) = rs.
Proof.
  revert i. induction rs as [|r rs IH]; intro i; [reflexivity|].
  cbn [with_index_from map]. rewrite untag, IH. reflexivity.
Qed.

(** The groups of a frame are those of the indexed frame, index
    forgotten. *)
Lemma group_rows_indexed rs :
  group_rows rs = map_groups snd (group_rows (with_index_from 0 rs)).
Proof.
  rewrite <- group_rows_map, untag_rows. reflexivity.
Qed.

Lemma print_each_groups (cols : list string) gi :
  print_each (map (fun kg => (fst kg, mkFrame cols (snd kg))) gi) =
  match gi with
  | [] => ([], None)
  | kg :: _ =>
      if existsb (String.eqb "onset") cols
      then if existsb (String.eqb "duration") cols
           then (lines_of gi, None)
           else ([PLabel (fst kg)], Some (AttributeError "duration"))
      else ([PLabel (fst kg)], Some (AttributeError "onset"))
  end.
Proof.
  induction gi as [|[k g] gi IH]; [reflexivity|].
  cbn [map print_each fst snd].
  unfold print_group, onset_tolist, duration_tolist, has_column.
  cbn [columns rows fst snd].
  destruct (existsb (String.eqb "onset") cols); [|reflexivity].
  destruct (existsb (String.eqb "duration") cols); [|reflexivity].
  rewrite IH. destruct gi; reflexivity.
Qed.

(** The cell, case by case. *)
Lemma print_cell_cases df :
  print_cell df =
  if has_column df "trial_type"
  then match group_rows (with_index_from 0 (rows df)) with
       | [] => ([], None)
       | kg :: gi =>
           if has_column df "onset"
           then if has_column df "duration"
                then (lines_of (kg :: gi), None)
                else ([PLabel (fst kg)], Some (AttributeError "duration"))
           else ([PLabel (fst kg)], Some (AttributeError "onset"))
       end
  else ([], Some (KeyError "trial_type")).
Proof.
  unfold print_cell, groupby_trial_type, has_column. cbn [with_index columns rows].
  destruct (existsb (String.eqb "trial_type") (columns df)); [|reflexivity].
  rewrite print_each_groups.
  destruct (group_rows (with_index_from 0 (rows df))); reflexivity.
Qed.

Lemma printed_labels_lines gi : printed_labels (lines_of gi) = keys gi.
Proof.
  induction gi as [|kg gi IH]; [reflexivity|].
  unfold printed_labels, lines_of in *. cbn [flat_map app keys map] in *.
  rewrite IH. reflexivity.
Qed.

Lemma printed_onsets_lines gi :
  printed_onsets (lines_of gi)
  = map (fun kg => map onset (map (map_record snd) (snd kg))) gi.
Proof.
  induction gi as [|kg gi IH]; [reflexivity|].
  unfold printed_onsets, lines_of, tolist in *. cbn [flat_map app map] in *.
  rewrite IH, !map_map. reflexivity.
Qed.

Lemma printed_durations_lines gi :
  printed_durations (lines_of gi)
  = map (fun kg => map duration (map (map_record snd) (snd kg))) gi.
Proof.
  induction gi as [|kg gi IH]; [reflexivity|].
  unfold printed_durations, lines_of, tolist in *. cbn [flat_map app map] in *.
  rewrite IH, !map_map. reflexivity.
Qed.

(** X8. With the three columns present the cell that shows the groups
    raises nothing, and it writes what the next cell stores: the labels
    written are [conditions], and the onsets and durations written, row
    labels apart, are [onsets] and [durations]. *)
Theorem shown_is_stored df :
  required_columns df = true ->
  exists b out, subject_info df = Ok b /\ print_cell df = (out, None)
    /\ printed_labels out = conditions b
    /\ printed_onsets out = onsets b
    /\ printed_durations out = durations b.
Proof.
  intro H. exists (bunch_of (group_rows (rows df))).
  exists (lines_of (group_rows (with_index_from 0 (rows df)))).
  split; [apply subject_info_ok; exact H|].
  apply required_columns_iff in H. destruct H as (T & O & D).
  split.
  - rewrite print_cell_cases, T, O, D.
    destruct (group_rows (with_index_from 0 (rows df))); reflexivity.
  - rewrite printed_labels_lines, printed_onsets_lines, printed_durations_lines.
    rewrite (group_rows_indexed (rows df)).
    unfold bunch_of, map_groups, keys. cbn [conditions onsets durations].
    rewrite !map_map. cbn [fst snd]. repeat split; reflexivity.
Qed.

(** X9. The two cells fail on the same inputs, with the same exception. *)
Theorem same_exception df :
  snd (print_cell df) =
  match subject_info df with
  | Ok _ => None
  | Raise e => Some e
  end.
Proof.
  rewrite print_cell_cases, subject_info_cases, (group_rows_indexed (rows df)).
  destruct (has_column df "trial_type"); [|reflexivity].
  destruct (group_rows (with_index_from 0 (rows df))); [reflexivity|].
  cbn [map_groups map].
  destruct (has_column df "onset"), (has_column df "duration"); reflexivity.
Qed.

Lemma in_with_index_from (i : nat) rs (tr : TrialRecord (nat * value)) :
  In tr (with_index_from i rs)
  <-> exists j r, nth_error rs j = Some r /\ tr = tag (i + j) r.
Proof.
  revert i. induction rs as [|r0 rs IH]; intro i; cbn [with_index_from In].
  - split; [intros []|]. intros (j & r & H & _). destruct j; discriminate.
  - rewrite IH. split.
    + intros [<-|(j & r & H & ->)].
      * exists 0, r0. rewrite Nat.add_0_r. split; reflexivity.
      * exists (S j), r. rewrite Nat.add_succ_r. split; [exact H|reflexivity].
    + intros ([|j] & r & H & ->).
      * left. injection H as ->. rewrite Nat.add_0_r. reflexivity.
      * right. exists j, r. rewrite Nat.add_succ_r. split; [exact H|reflexivity].
Qed.

Lemma row_labels_seq (i : nat) rs :
  map (fun tr => fst (onset tr)) (with_index_from i rs)
  = seq i (List.length rs).
Proof.
  revert i. induction rs as [|r rs IH]; intro i; [reflexivity|].
  cbn [with_index_from map List.length seq]. rewrite IH. reflexivity.
Qed.

Lemma seq_ascending (i n : nat) : StronglySorted Nat.lt (seq i n).
Proof.
  revert i. induction n as [|n IH]; intro i; cbn [seq]; constructor.
  - apply IH.
  - apply Forall_forall. intros j Hj. apply in_seq in Hj. apply Hj.
Qed.

Lemma ascending_filter {X : Type} (f : X -> nat) (p : X -> bool) (l : list X) :
  StronglySorted Nat.lt (map f l) -> StronglySorted Nat.lt (map f (filter p l)).
Proof.
  induction l as [|x l IH]; cbn [map filter]; intro S; [constructor|].
  inversion S as [|? ? S' F]; subst. destruct (p x); [|apply IH; exact S'].
  cbn [map]. constructor; [apply IH; exact S'|].
  rewrite Forall_forall in F |- *. intros j Hj. apply F.
  apply in_map_iff in Hj. destruct Hj as (y & <- & Hy).
  apply in_map. apply filter_In in Hy. apply Hy.
Qed.

Lemma lines_of_entries gi :
  lines_of gi =
  flat_map (fun e : string * (Series value * Series value) =>
              [PLabel (fst e); PSeries (fst (snd e)) (snd (snd e))])
    (map (fun kg => (fst kg, (map onset (snd kg), map duration (snd kg)))) gi).
Proof.
  unfold lines_of. induction gi as [|kg gi IH]; [reflexivity|].
  cbn [map flat_map fst snd]. rewrite IH. reflexivity.
Qed.

(** The Series of the rows of label [k] in the indexed frame. *)
Lemma series_of_label rs k (proj : TrialRecord value -> value)
      (col : TrialRecord (nat * value) -> nat * value) :
  (forall i r, col (tag i r) = (i, proj r)) ->
  let s := map col (filter (has_label k) (with_index_from 0 rs)) in
  map fst s
  = map (fun tr => fst (onset tr)) (filter (has_label k) (with_index_from 0 rs))
  /\ forall i v, In (i, v) s <->
       exists r, nth_error rs i = Some r /\ trial_type r = Some k /\ proj r = v.
Proof.
  intros Hcol s. subst s. split.
  - rewrite map_map. apply map_ext_in. intros tr Htr.
    apply filter_In in Htr. destruct Htr as [Htr _].
    apply in_with_index_from in Htr. destruct Htr as (j & r & _ & ->).
    rewrite Hcol. reflexivity.
  - intros i v. rewrite in_map_iff. split.
    + intros (tr & E & Htr). apply filter_In in Htr. destruct Htr as [Htr L].
      apply in_with_index_from in Htr. destruct Htr as (j & r & Hj & ->).
      rewrite Hcol in E. cbn [Nat.add] in E. injection E as -> <-.
      exists r. split; [exact Hj|]. split; [|reflexivity].
      apply has_label_iff in L. exact L.
    + intros (r & Hi & T & <-). exists (tag i r). split; [apply Hcol|].
      apply filter_In. split.
      * apply in_with_index_from. exists i, r. split; [exact Hi|reflexivity].
      * apply has_label_iff. exact T.
Qed.

(** X10. With the three columns present the cell writes, for each label
    in turn, an onset Series and a duration Series that carry the same
    row labels, in ascending order: row [i] is shown under label [k]
    exactly when the record of row [i] has [trial_type] [k], and then
    with the onset and the duration of that record. *)
Theorem row_labels_shown df :
  required_columns df = true ->
  exists entries : list (string * (Series value * Series value)),
    print_cell df
    = (flat_map (fun e => [PLabel (fst e); PSeries (fst (snd e)) (snd (snd e))])
         entries, None)
    /\ Forall (fun e =>
         StronglySorted Nat.lt (map fst (fst (snd e)))
         /\ map fst (snd (snd e)) = map fst (fst (snd e))
         /\ (forall i v, In (i, v) (fst (snd e)) <->
               exists r, nth_error (rows df) i = Some r
                 /\ trial_type r = Some (fst e) /\ onset r = v)
         /\ (forall i v, In (i, v) (snd (snd e)) <->
               exists r, nth_error (rows df) i = Some r
                 /\ trial_type r = Some (fst e) /\ duration r = v))
       entries.
Proof.
  intro H. apply required_columns_iff in H. destruct H as (T & O & D).
  exists (map (fun kg => (fst kg, (map onset (snd kg), map duration (snd kg))))
            (group_rows (with_index_from 0 (rows df)))).
  split.
  - rewrite <- lines_of_entries, print_cell_cases, T, O, D.
    destruct (group_rows (with_index_from 0 (rows df))); reflexivity.
  - apply Forall_map.
    destruct (group_rows_spec (with_index_from 0 (rows df))) as (_ & F & _).
    eapply Forall_impl; [|exact F]. intros [k g] [E _]. cbn [fst snd] in *.
    subst g.
    destruct (series_of_label (rows df) k onset onset
                (fun i r => eq_refl)) as [Io Mo].
    destruct (series_of_label (rows df) k duration duration
                (fun i r => eq_refl)) as [Id Md].
    split; [|split; [|split]].
    + rewrite Io. apply ascending_filter. rewrite row_labels_seq.
      apply seq_ascending.
    + rewrite Io, Id. reflexivity.
    + exact Mo.
    + exact Md.
Qed.

(** X11. What is written before a failure: nothing when the frame has no
    [trial_type] column; and when a record carries a label but the
    [onset] or the [duration] column is missing, the smallest label of
    the input and nothing else, the [AttributeError] naming the first of
    the two columns that is missing. *)
Theorem written_before_failure df :
  (has_column df "trial_type" = false ->
   print_cell df = ([], Some (KeyError "trial_type")))
  /\ (has_column df "trial_type" = true ->
      existsb labelled (rows df) = true ->
      has_column df "onset" && has_column df "duration" = false ->
      exists k,
        print_cell df
        = ([PLabel k],
           Some (AttributeError
                   (if has_column df "onset" then "duration" else "onset")))
        /\ (exists r, In r (rows df) /\ trial_type r = Some k)
        /\ forall r k', In r (rows df) -> trial_type r = Some k' ->
             k = k' \/ slt k k').
Proof.
  split.
  - intro T. rewrite print_cell_cases, T. reflexivity.
  - intros T L M. rewrite print_cell_cases, T.
    pose proof (group_rows_spec (rows df)) as G.
    pose proof (group_rows_indexed (rows df)) as E.
    destruct (group_rows (with_index_from 0 (rows df))) as [|[k g] gi].
    + cbn in E. apply group_rows_nil_iff in E. congruence.
    + cbn [map_groups map fst snd] in E. rewrite E in G.
      exists k. split; [|split].
      * cbn [fst]. destruct (has_column df "onset"), (has_column df "duration");
          try reflexivity. discriminate.
      * apply (groups_of_key _ _ k G). left. reflexivity.
      * intros r k' Hr T'.
        assert (Hk : In k' (keys ((k, map (map_record snd) g)
                      :: map (fun kg => (fst kg, map (map_record snd) (snd kg))) gi))).
        { apply (groups_of_key _ _ k' G). exists r. split; assumption. }
        destruct G as (S & _ & _). cbn [keys map fst] in S, Hk.
        destruct Hk as [Hk|Hk]; [left; exact Hk|]. right.
        inversion S as [|? ? _ F]; subst. rewrite Forall_forall in F.
        apply F. exact Hk.
Qed.

End PrintFacts.

(** ** The outputs the notebook records *)

(** [trialinfo.head()] shows the five rows the notebook shows. *)
Example head_of_events : head events = events_head.
Proof. reflexivity. Qed.

(** The groups written for the events file, row labels included. *)
Example events_shown :
  print_cell events =
  ([ PLabel "Finger";
     PSeries [(0, 10%Z); (3, 100%Z); (6, 190%Z); (9, 280%Z); (12, 370%Z)]
             [(0, 15%Z); (3, 15%Z); (6, 15%Z); (9, 15%Z); (12, 15%Z)];
     PLabel "Foot";
     PSeries [(1, 40%Z); (4, 130%Z); (7, 220%Z); (10, 310%Z); (13, 400%Z)]
             [(1, 15%Z); (4, 15%Z); (7, 15%Z); (10, 15%Z); (13, 15%Z)];
     PLabel "Lips";
     PSeries [(2, 70%Z); (5, 160%Z); (8, 250%Z); (11, 340%Z); (14, 430%Z)]
             [(2, 15%Z); (5, 15%Z); (8, 15%Z); (11, 15%Z); (14, 15%Z)] ],
   None).
Proof. reflexivity. Qed.

(** The [Bunch] stored for the events file. *)
Example events_stored :
  subject_info events =
  Ok (mkBunch ["Finger"; "Foot"; "Lips"]
        [[10; 100; 190; 280; 370]; [40; 130; 220; 310; 400];
         [70; 160; 250; 340; 430]]%Z
        [[15; 15; 15; 15; 15]; [15; 15; 15; 15; 15]; [15; 15; 15; 15; 15]]%Z).
Proof. reflexivity. Qed.

(** ** Further instances on the example frames *)

Lemma no_empty_entry_witness :
  exists b, subject_info events = Ok b
    /\ (forall i os, nth_error (onsets b) i = Some os -> os <> [])
    /\ (forall i ds, nth_error (durations b) i = Some ds -> ds <> []).
Proof. apply (no_empty_entry events). reflexivity. Defined.

Lemma records_conserved_witness :
  exists b, subject_info ragged = Ok b
    /\ Permutation (flatten b)
                   (map unweighted (filter labelled (rows ragged))).
Proof. apply (records_conserved ragged). reflexivity. Defined.

Lemma order_across_conditions_irrelevant_witness :
  subject_info foot_first = subject_info finger_first.
Proof.
  apply (order_across_conditions_irrelevant foot_first finger_first).
  - reflexivity.
  - intro k. unfold has_label. cbn.
    destruct (String.eqb k "Foot") eqn:E1, (String.eqb k "Finger") eqn:E2;
      try reflexivity.
    apply String.eqb_eq in E1, E2. subst k. discriminate.
Defined.

Lemma shuffled_input_witness :
  exists b1 b2, subject_info foot_first = Ok b1 /\ subject_info foot_last = Ok b2
    /\ conditions b1 = conditions b2
    /\ (forall i os1 os2, nth_error (onsets b1) i = Some os1 ->
          nth_error (onsets b2) i = Some os2 -> Permutation os1 os2)
    /\ (forall i ds1 ds2, nth_error (durations b1) i = Some ds1 ->
          nth_error (durations b2) i = Some ds2 -> Permutation ds1 ds2).
Proof.
  apply (shuffled_input foot_first foot_last).
  - reflexivity.
  - reflexivity.
  - apply (Permutation_rev (rows foot_first)).
Defined.

Lemma appended_records_witness :
  exists b b',
    subject_info (mkFrame (columns foot_first) (rows foot_first)) = Ok b
    /\ subject_info (mkFrame (columns foot_first)
                       (rows foot_first ++ rows five_trials)) = Ok b'
    /\ forall i c, nth_error (conditions b) i = Some c ->
         exists j os ds,
           nth_error (conditions b') j = Some c
           /\ nth_error (onsets b) i = Some os
           /\ nth_error (onsets b') j
              = Some (os ++ map onset (filter (has_label c) (rows five_trials)))
           /\ nth_error (durations b) i = Some ds
           /\ nth_error (durations b') j
              = Some (ds ++ map duration (filter (has_label c) (rows five_trials))).
Proof.
  apply (appended_records (columns foot_first) (rows foot_first)
           (rows five_trials)).
  reflexivity.
Defined.

Lemma head_grouped_witness :
  exists bh b, subject_info (head events) = Ok bh /\ subject_info events = Ok b
    /\ List.length (List.concat (onsets bh)) <= 5
    /\ forall i c, nth_error (conditions bh) i = Some c ->
         exists j os ds os' ds',
           nth_error (conditions b) j = Some c
           /\ nth_error (onsets bh) i = Some os
           /\ nth_error (onsets b) j = Some (os ++ os')
           /\ nth_error (durations bh) i = Some ds
           /\ nth_error (durations b) j = Some (ds ++ ds').
Proof. apply (head_grouped events). reflexivity. Defined.

Lemma shown_is_stored_witness :
  exists b out, subject_info events = Ok b /\ print_cell events = (out, None)
    /\ printed_labels out = conditions b
    /\ printed_onsets out = onsets b
    /\ printed_durations out = durations b.
Proof. apply (shown_is_stored events). reflexivity. Defined.

Lemma row_labels_shown_witness :
  exists entries : list (string * (Series Z * Series Z)),
    print_cell events
    = (flat_map (fun e => [PLabel (fst e); PSeries (fst (snd e)) (snd (snd e))])
         entries, None)
    /\ Forall (fun e =>
         StronglySorted Nat.lt (map fst (fst (snd e)))
         /\ map fst (snd (snd e)) = map fst (fst (snd e))
         /\ (forall i v, In (i, v) (fst (snd e)) <->
               exists r, nth_error (rows events) i = Some r
                 /\ trial_type r = Some (fst e) /\ onset r = v)
         /\ (forall i v, In (i, v) (snd (snd e)) <->
               exists r, nth_error (rows events) i = Some r
                 /\ trial_type r = Some (fst e) /\ duration r = v))
       entries.
Proof. apply (row_labels_shown events). reflexivity. Defined.

Lemma written_before_failure_witness :
  print_cell no_trial_type = ([], Some (KeyError "trial_type"))
  /\ exists k,
       print_cell no_onset = ([PLabel k], Some (AttributeError "onset"))
       /\ (exists r, In r (rows no_onset) /\ trial_type r = Some k)
       /\ forall r k', In r (rows no_onset) -> trial_type r = Some k' ->
            k = k' \/ slt k k'.
Proof.
  split.
  - apply (proj1 (written_before_failure no_trial_type)). reflexivity.
  - apply (proj2 (written_before_failure no_onset)); reflexivity.
Defined.

(** ** The labels listed *)

Section Listed.

Context {value : Type}.

(** X12. For every input with the three columns, a label is in
    [conditions] exactly when some record of the input has it as its
    [trial_type]: no label of the input is left out and none is made
    up. *)
Theorem condition_listed_iff (df : DataFrame value) :
  required_columns df = true ->
  exists b, subject_info df = Ok b
    /\ forall c, In c (conditions b)
         <-> exists r, In r (rows df) /\ trial_type r = Some c.
Proof.
  intro H. exists (bunch_of (group_rows (rows df))).
  split; [apply subject_info_ok; exact H|].
  intro c. exact (groups_of_key _ _ c (group_rows_spec (rows df))).
Qed.

End Listed.

Lemma condition_listed_iff_witness :
  exists b, subject_info ragged = Ok b
    /\ forall c, In c (conditions b)
         <-> exists r, In r (rows ragged) /\ trial_type r = Some c.
Proof. apply (condition_listed_iff ragged). reflexivity. Defined.
